(** * Usuario_ok.py: the user-registration handler

    A shallow embedding of [get_db_connection] and [register_user] from
    [src/Usuario_ok.py].  The handler talks to three collaborators that live
    outside the repository: Flask's request object, the psycopg2 connection to
    PostgreSQL and bcrypt.  Their answers are inputs of the model (the
    [request] and the [environment]); what the handler does with them is
    translated statement by statement into a small monad that threads the
    state of the store, records every call made to a collaborator and carries
    Python exceptions. *)

From Stdlib Require Import ZArith String List Lia.
From Stdlib Require Import Floats.SpecFloat.
From stdpp Require Import base option gmap strings list.

Set Warnings "-register-all".
Open Scope string_scope.
Open Scope list_scope.
Open Scope Z_scope.

(** ** Python values *)

(** The values [request.get_json] can produce, and the values the handler
    passes around.  A [str] is modelled by the bytes of its UTF-8 encoding, so
    [encode('utf-8')] and [decode('utf-8')] are the identity on it. *)
Inductive pyval : Type :=
| PNone
| PBool (b : bool)
| PInt (n : Z)
| PFloat (f : spec_float)
| PStr (s : string)
| PList (l : list pyval)
| PDict (m : gmap string pyval).

(** [bool(v)]: what [not v] tests. *)
Definition truthy (v : pyval) : bool :=
  match v with
  | PNone => false
  | PBool b => b
  | PInt n => negb (n =? 0)
  | PFloat (S754_zero _) => false
  | PFloat _ => true
  | PStr s => negb (String.eqb s "")
  | PList l => match l with [] => false | _ :: _ => true end
  | PDict m => negb (bool_decide (size m = 0%nat))
  end.

Definition is_str (v : pyval) : bool :=
  match v with PStr _ => true | _ => false end.

(** [type(v).__name__], as it appears in the text of an [AttributeError]. *)
Definition type_name (v : pyval) : string :=
  match v with
  | PNone => "NoneType"
  | PBool _ => "bool"
  | PInt _ => "int"
  | PFloat _ => "float"
  | PStr _ => "str"
  | PList _ => "list"
  | PDict _ => "dict"
  end.

(** ** Exceptions *)

(** The DB-API classes under [psycopg2.Error].  An exception raised by the
    driver belongs to one of them and carries the SQLSTATE of the server
    ([pgcode]) and a message. *)
Inductive dbapi_class : Type :=
| InterfaceError
| DatabaseError
| DataError
| OperationalError
| IntegrityError
| InternalError
| ProgrammingError
| NotSupportedError.

Inductive exn : Type :=
| AttributeError (msg : string)
| TypeError (msg : string)
| Psycopg2Error (cls : dbapi_class) (pgcode : string) (msg : string).

(** [str(e)] *)
Definition str_exn (e : exn) : string :=
  match e with
  | AttributeError msg => msg
  | TypeError msg => msg
  | Psycopg2Error _ _ msg => msg
  end.

(** [isinstance(e, psycopg2.OperationalError)] *)
Definition is_operational_error (e : exn) : bool :=
  match e with
  | Psycopg2Error OperationalError _ _ => true
  | _ => false
  end.

(** [isinstance(e, psycopg2.IntegrityError)] *)
Definition is_integrity_error (e : exn) : bool :=
  match e with
  | Psycopg2Error IntegrityError _ _ => true
  | _ => false
  end.

(** SQLSTATE 23505, [unique_violation]: the integrity error PostgreSQL raises
    for a duplicate key. *)
Definition is_unique_violation (e : exn) : bool :=
  match e with
  | Psycopg2Error IntegrityError pgcode _ => String.eqb pgcode "23505"
  | _ => false
  end.

Definition no_attribute (v : pyval) (attr : string) : exn :=
  AttributeError ("'" +:+ type_name v +:+ "' object has no attribute '" +:+ attr +:+ "'").

(** ** The request *)

(** [get_json_silent] is the value of [request.get_json(silent=True)]: the
    parsed JSON payload, or [PNone] when Flask finds none (no JSON content
    type, a body that does not parse, or the JSON [null]).  [form] is
    [request.form], a multi-dict of strings. *)
Record request : Type := mkRequest {
  get_json_silent : pyval;
  form : list (string * string)
}.

(** What the variable [data] holds after lines 47-49. *)
Inductive payload : Type :=
| JsonData (v : pyval)
| FormData (f : list (string * string)).

(** [MultiDict.get(key)]: the first value stored under the key, else [None]. *)
Fixpoint multidict_get (f : list (string * string)) (key : string) : pyval :=
  match f with
  | [] => PNone
  | (k, v) :: rest => if String.eqb k key then PStr v else multidict_get rest key
  end.

(** The outcome of a Python expression or call: a value, or an exception. *)
Inductive outcome (A : Type) : Type :=
| Return (a : A)
| Raise (e : exn).
Arguments Return {A} a.
Arguments Raise {A} e.

(** [data.get(key)].  Only a [dict] and the form multi-dict have the method. *)
Definition data_get (data : payload) (key : string) : outcome pyval :=
  match data with
  | JsonData (PDict m) => Return (default PNone (m !! key))
  | JsonData v => Raise (no_attribute v "get")
  | FormData f => Return (multidict_get f key)
  end.

(** [password.encode('utf-8')] *)
Definition str_encode (v : pyval) : outcome string :=
  match v with
  | PStr s => Return s
  | _ => Raise (no_attribute v "encode")
  end.

(** ** The store and the other collaborators *)

Record user_row : Type := mkRow {
  row_id : Z;
  row_username : pyval;
  row_email : pyval;
  row_password_hash : string
}.

(** What [cursor.execute] of the INSERT ... RETURNING id does: the store
    accepts the row and generates its id, or the driver raises. *)
Inductive exec_result : Type :=
| Inserted (id : Z)
| Failed (e : exn).

(** The answers of the collaborators during one call of the handler. *)
Record environment : Type := mkEnv {
  (** [None] when [psycopg2.connect] succeeds, else the message of the
      [OperationalError] it raises *)
  connect_error : option string;
  (** the salt [bcrypt.gensalt()] draws for this call *)
  gensalt : string;
  (** [bcrypt.hashpw] *)
  hashpw : string -> string -> string;
  (** the store's answer to the INSERT *)
  execute_result : exec_result
}.

(** The state outside the handler.  [users] are the committed rows of the
    table; [pending] the rows written by the current connection and not yet
    committed; [result_set] the rows the cursor has to fetch; the two counters
    are the handles that are open; [stdout] collects what [print] writes. *)
Record world : Type := mkWorld {
  users : list user_row;
  pending : list user_row;
  result_set : list Z;
  open_connections : nat;
  open_cursors : nat;
  stdout : list string
}.

(** Every call to a collaborator, in the order the handler makes them. *)
Inductive event : Type :=
| EvConnect (established : bool)
| EvGetJson
| EvForm
| EvCursor
| EvExecute (username email : pyval) (password_hash : string) (r : exec_result)
| EvFetchone
| EvCommit
| EvRollback
| EvCursorClose
| EvConnClose.

(** ** The monad of the handler *)

Definition M (A : Type) : Type :=
  environment -> world -> outcome A * world * list event.

Definition ret {A} (a : A) : M A := fun _ w => (Return a, w, []).

Definition raise {A} (e : exn) : M A := fun _ w => (Raise e, w, []).

Definition bind {A B} (m : M A) (k : A -> M B) : M B := fun env w =>
  match m env w with
  | (Return a, w1, t1) => let '(r, w2, t2) := k a env w1 in (r, w2, t1 ++ t2)
  | (Raise e, w1, t1) => (Raise e, w1, t1)
  end.

Notation "'let*' x ':=' m 'in' k" := (bind m (fun x => k))
  (at level 10, x name, m at level 100, k at level 200).
Notation "m '>>' k" := (bind m (fun _ => k))
  (at level 100, k at level 200, right associativity).

(** An expression that may raise, evaluated inside the handler. *)
Definition lift {A} (o : outcome A) : M A :=
  match o with
  | Return a => ret a
  | Raise e => raise e
  end.

(** [try: body except ...: handlers].  [handlers e] is the clause that
    matches [e], if there is one. *)
Definition try_except {A} (body : M A) (handlers : exn -> option (M A)) : M A :=
  fun env w =>
    match body env w with
    | (Raise e, w1, t1) =>
        match handlers e with
        | Some h => let '(r, w2, t2) := h env w1 in (r, w2, t1 ++ t2)
        | None => (Raise e, w1, t1)
        end
    | other => other
    end.

(** [try: body finally: cleanup]: the clean-up runs on every way out of the
    body; an exception of the clean-up replaces the body's outcome. *)
Definition try_finally {A} (body : M A) (cleanup : M unit) : M A :=
  fun env w =>
    let '(r, w1, t1) := body env w in
    match cleanup env w1 with
    | (Return _, w2, t2) => (r, w2, t1 ++ t2)
    | (Raise e, w2, t2) => (Raise e, w2, t1 ++ t2)
    end.

Definition emit (e : event) : M unit := fun _ w => (Return tt, w, [e]).

Definition modify (f : world -> world) : M unit := fun _ w => (Return tt, f w, []).

Definition ask : M environment := fun env w => (Return env, w, []).

Definition get_world : M world := fun _ w => (Return w, w, []).

(** *** The store's state changes *)

Definition st_print (s : string) (w : world) : world :=
  mkWorld (users w) (pending w) (result_set w)
          (open_connections w) (open_cursors w) (stdout w ++ [s]).

(** A new connection starts with an empty transaction. *)
Definition st_connect (w : world) : world :=
  mkWorld (users w) [] [] (S (open_connections w)) (open_cursors w) (stdout w).

Definition st_cursor (w : world) : world :=
  mkWorld (users w) (pending w) (result_set w)
          (open_connections w) (S (open_cursors w)) (stdout w).

(** INSERT ... RETURNING id: the row waits for the commit, its id is the
    result the cursor holds. *)
Definition st_insert (row : user_row) (w : world) : world :=
  mkWorld (users w) (pending w ++ [row]) [row_id row]
          (open_connections w) (open_cursors w) (stdout w).

Definition st_fetched (rest : list Z) (w : world) : world :=
  mkWorld (users w) (pending w) rest
          (open_connections w) (open_cursors w) (stdout w).

(** The pending rows become durable. *)
Definition st_commit (w : world) : world :=
  mkWorld (users w ++ pending w) [] (result_set w)
          (open_connections w) (open_cursors w) (stdout w).

(** The pending rows are dropped. *)
Definition st_rollback (w : world) : world :=
  mkWorld (users w) [] (result_set w)
          (open_connections w) (open_cursors w) (stdout w).

Definition st_cursor_close (w : world) : world :=
  mkWorld (users w) (pending w) []
          (open_connections w) (Nat.pred (open_cursors w)) (stdout w).

(** What was not committed is lost with the connection. *)
Definition st_conn_close (w : world) : world :=
  mkWorld (users w) [] (result_set w)
          (Nat.pred (open_connections w)) (open_cursors w) (stdout w).

(** *** Primitive calls *)

Definition print (s : string) : M unit := modify (st_print s).

Inductive connection : Type := PgConnection.
Inductive cursor : Type := PgCursor.

(** [psycopg2.connect(...)] *)
Definition psycopg2_connect : M connection :=
  let* env := ask in
  match connect_error env with
  | None =>
      emit (EvConnect true) >>
      modify st_connect >>
      ret PgConnection
  | Some msg =>
      emit (EvConnect false) >>
      raise (Psycopg2Error OperationalError "" msg)
  end.

(** [conn.cursor()] *)
Definition conn_cursor (conn : connection) : M cursor :=
  emit EvCursor >>
  modify st_cursor >>
  ret PgCursor.

(** [cursor.execute(query, (username, email, hashed_password))] with the
    INSERT INTO users ... RETURNING id of the handler. *)
Definition cursor_execute (c : cursor) (username email : pyval)
    (hashed_password : string) : M unit :=
  let* env := ask in
  emit (EvExecute username email hashed_password (execute_result env)) >>
  match execute_result env with
  | Inserted id => modify (st_insert (mkRow id username email hashed_password))
  | Failed e => raise e
  end.

(** [cursor.fetchone()]: the next row of the result, or [None]. *)
Definition cursor_fetchone (c : cursor) : M (option Z) :=
  emit EvFetchone >>
  let* w := get_world in
  match result_set w with
  | [] => ret None
  | id :: rest =>
      modify (st_fetched rest) >>
      ret (Some id)
  end.

(** [row[0]] *)
Definition subscript0 (row : option Z) : outcome Z :=
  match row with
  | Some id => Return id
  | None => Raise (TypeError "'NoneType' object is not subscriptable")
  end.

(** [conn.commit()] *)
Definition conn_commit (conn : connection) : M unit :=
  emit EvCommit >> modify st_commit.

(** [conn.rollback()] *)
Definition conn_rollback (conn : connection) : M unit :=
  emit EvRollback >> modify st_rollback.

(** [cursor.close()] *)
Definition cursor_close (c : cursor) : M unit :=
  emit EvCursorClose >> modify st_cursor_close.

(** [conn.close()] *)
Definition conn_close (conn : connection) : M unit :=
  emit EvConnClose >> modify st_conn_close.

(** [request.get_json(silent=True)] *)
Definition request_get_json (r : request) : M pyval :=
  emit EvGetJson >> ret (get_json_silent r).

(** [request.form] *)
Definition request_form (r : request) : M payload :=
  emit EvForm >> ret (FormData (form r)).

(** [bcrypt.hashpw(password_bytes, bcrypt.gensalt())]; the arguments are
    evaluated before the call, the salt last. *)
Definition bcrypt_hashpw (password_bytes : string) : M string :=
  let* env := ask in
  ret (hashpw env password_bytes (gensalt env)).

(** ** The handler *)

(** [jsonify({...}), status] *)
Record response : Type := mkResponse {
  body : gmap string pyval;
  status : Z
}.

Definition jsonify (fields : list (string * pyval)) : gmap string pyval :=
  list_to_map fields.

(** Lines 34-37. *)
Definition home : string := "Servidor Flask funcionando. Listo para el Registro.".

(** Lines 16-30. *)
Definition get_db_connection : M (option connection) :=
  try_except
    (let* conn := psycopg2_connect in
     ret (Some conn))
    (fun e =>
       if is_operational_error e then
         Some (print ("ERROR: No se pudo conectar a la base de datos. Detalles: "
                      +:+ str_exn e) >>
               ret None)
       else None).

Definition response_store_unavailable : response :=
  mkResponse
    (jsonify [("message",
               PStr "Error interno del servidor: Falló la conexión a la base de datos.")])
    500.

Definition response_missing_fields : response :=
  mkResponse
    (jsonify [("message", PStr "Faltan datos de usuario, correo o contraseña")])
    400.

Definition response_created (user_id : Z) (username email : pyval) : response :=
  mkResponse
    (jsonify [("message", PStr "Usuario registrado exitosamente en la base de datos.");
              ("user_id", PInt user_id);
              ("usuario", username);
              ("correo", email)])
    201.

Definition response_conflict : response :=
  mkResponse
    (jsonify [("message",
               PStr "Error: El usuario o correo electrónico ya está registrado.")])
    409.

Definition response_internal_error (e : exn) : response :=
  mkResponse
    (jsonify [("message", PStr "Error interno al procesar el registro.");
              ("error_detail", PStr (str_exn e))])
    500.

(** Lines 40-104. *)
Definition register_user (request : request) : M response :=
  let* conn := get_db_connection in
  match conn with
  | None => ret response_store_unavailable
  | Some conn =>
      let* json := request_get_json request in
      let* data := match json with
                   | PNone => request_form request
                   | _ => ret (JsonData json)
                   end in
      let* username := lift (data_get data "username") in
      let* email := lift (data_get data "email") in
      let* password := lift (data_get data "password") in
      if negb (truthy username) || negb (truthy email) || negb (truthy password) then
        conn_close conn >>
        ret response_missing_fields
      else
        let* password_bytes := lift (str_encode password) in
        let* hashed_password := bcrypt_hashpw password_bytes in
        let* cursor := conn_cursor conn in
        try_finally
          (try_except
             (cursor_execute cursor username email hashed_password >>
              let* row := cursor_fetchone cursor in
              let* user_id := lift (subscript0 row) in
              conn_commit conn >>
              ret (response_created user_id username email))
             (fun e =>
                if is_integrity_error e then
                  Some (conn_rollback conn >>
                        ret response_conflict)
                else
                  Some (conn_rollback conn >>
                        print ("Error al registrar usuario: " +:+ str_exn e) >>
                        ret (response_internal_error e))))
          (cursor_close cursor >>
           conn_close conn)
  end.

(** A server that handles the calls one after the other.  Flask answers a
    call whose handler raised and goes on with the next. *)
Fixpoint serve (calls : list (request * environment)) (w : world)
    : list (outcome response) * world * list event :=
  match calls with
  | [] => ([], w, [])
  | (req, env) :: rest =>
      let '(r, w1, t1) := register_user req env w in
      let '(rs, w2, t2) := serve rest w1 in
      (r :: rs, w2, t1 ++ t2)
  end.

(** ** Observing a run *)

Section Observations.
Context {R : Type}.
Implicit Type run : R * world * list event.

Definition result_of run : R := run.1.1.
Definition world_of run : world := run.1.2.
Definition trace_of run : list event := run.2.
End Observations.

(** The id the store generated, when the trace holds an INSERT that the
    store accepted. *)
Fixpoint inserted_id (t : list event) : option Z :=
  match t with
  | [] => None
  | EvExecute _ _ _ (Inserted id) :: _ => Some id
  | _ :: rest => inserted_id rest
  end.

(** The exception of the INSERT, when the trace holds one that raised. *)
Fixpoint insert_failure (t : list event) : option exn :=
  match t with
  | [] => None
  | EvExecute _ _ _ (Failed e) :: _ => Some e
  | _ :: rest => insert_failure rest
  end.

Definition is_execute (e : event) : bool :=
  match e with EvExecute _ _ _ _ => true | _ => false end.

Definition is_commit (e : event) : bool :=
  match e with EvCommit => true | _ => false end.

Definition is_rollback (e : event) : bool :=
  match e with EvRollback => true | _ => false end.

Definition is_form_read (e : event) : bool :=
  match e with EvForm => true | _ => false end.

Definition is_body_read (e : event) : bool :=
  match e with EvGetJson | EvForm => true | _ => false end.

(** Whether the run sent an INSERT to the store. *)
Definition attempts_insert (t : list event) : bool := existsb is_execute t.

Definition commits (t : list event) : bool := existsb is_commit t.

Definition rolls_back (t : list event) : bool := existsb is_rollback t.

(** Whether the run looked at the body of the request, and at its form. *)
Definition reads_body (t : list event) : bool := existsb is_body_read t.

Definition reads_form (t : list event) : bool := existsb is_form_read t.

(** Whether [psycopg2.connect] succeeds. *)
Definition store_reachable (env : environment) : bool :=
  match connect_error env with
  | None => true
  | Some _ => false
  end.

(** The value of [data] (lines 47-49) as a function of the request. *)
Definition payload_of (r : request) : payload :=
  match get_json_silent r with
  | PNone => FormData (form r)
  | v => JsonData v
  end.

(** The calls that read the body, in order. *)
Definition body_reads (r : request) : list event :=
  match get_json_silent r with
  | PNone => [EvGetJson; EvForm]
  | _ => [EvGetJson]
  end.

(** The three fields are there and none is falsy: the test of line 56 fails. *)
Definition all_truthy (u e p : pyval) : bool := truthy u && truthy e && truthy p.

Definition is_required (key : string) : Prop :=
  key = "username" \/ key = "email" \/ key = "password".

(** The field is absent from the JSON object or the form, or it is the empty
    string. *)
Definition field_missing (req : request) (key : string) : Prop :=
  data_get (payload_of req) key = Return PNone
  \/ data_get (payload_of req) key = Return (PStr "").

Definition some_field_missing (req : request) : Prop :=
  field_missing req "username" \/ field_missing req "email"
  \/ field_missing req "password".

(** The value a JSON object binds to a key. *)
Definition json_field (req : request) (key : string) : option pyval :=
  match get_json_silent req with
  | PDict m => m !! key
  | _ => None
  end.

(** The JSON object with the fields of a form. *)
Definition form_as_dict (f : list (string * string)) : gmap string pyval :=
  list_to_map (map (fun kv => (kv.1, PStr kv.2)) f).

(** The request that carries the fields of [req]'s form as a JSON object. *)
Definition as_json_request (req : request) : request :=
  mkRequest (PDict (form_as_dict (form req))) [].

(** ** The paths through the handler *)

(** The ways out of [register_user], each with the condition that selects it
    and with the result, the state and the trace it ends with. *)
Inductive handler_path (req : request) (env : environment) (w : world)
  : outcome response * world * list event -> Prop :=
| PathStoreUnavailable msg :
    connect_error env = Some msg ->
    handler_path req env w
      (Return response_store_unavailable,
       st_print ("ERROR: No se pudo conectar a la base de datos. Detalles: " +:+ msg) w,
       [EvConnect false])
| PathNotAMapping v :
    connect_error env = None ->
    payload_of req = JsonData v ->
    (forall m, v <> PDict m) ->
    handler_path req env w
      (Raise (no_attribute v "get"), st_connect w, [EvConnect true; EvGetJson])
| PathMissingFields u e p :
    connect_error env = None ->
    data_get (payload_of req) "username" = Return u ->
    data_get (payload_of req) "email" = Return e ->
    data_get (payload_of req) "password" = Return p ->
    all_truthy u e p = false ->
    handler_path req env w
      (Return response_missing_fields,
       st_conn_close (st_connect w),
       EvConnect true :: body_reads req ++ [EvConnClose])
| PathPasswordNotStr u e p :
    connect_error env = None ->
    data_get (payload_of req) "username" = Return u ->
    data_get (payload_of req) "email" = Return e ->
    data_get (payload_of req) "password" = Return p ->
    all_truthy u e p = true ->
    is_str p = false ->
    handler_path req env w
      (Raise (no_attribute p "encode"), st_connect w, EvConnect true :: body_reads req)
| PathCreated u e pw id :
    connect_error env = None ->
    data_get (payload_of req) "username" = Return u ->
    data_get (payload_of req) "email" = Return e ->
    data_get (payload_of req) "password" = Return (PStr pw) ->
    all_truthy u e (PStr pw) = true ->
    execute_result env = Inserted id ->
    handler_path req env w
      (Return (response_created id u e),
       st_conn_close (st_cursor_close (st_commit (st_fetched []
         (st_insert (mkRow id u e (hashpw env pw (gensalt env)))
            (st_cursor (st_connect w)))))),
       EvConnect true :: body_reads req ++
         [EvCursor; EvExecute u e (hashpw env pw (gensalt env)) (Inserted id);
          EvFetchone; EvCommit; EvCursorClose; EvConnClose])
| PathConflict u e pw ex :
    connect_error env = None ->
    data_get (payload_of req) "username" = Return u ->
    data_get (payload_of req) "email" = Return e ->
    data_get (payload_of req) "password" = Return (PStr pw) ->
    all_truthy u e (PStr pw) = true ->
    execute_result env = Failed ex ->
    is_integrity_error ex = true ->
    handler_path req env w
      (Return response_conflict,
       st_conn_close (st_cursor_close (st_rollback (st_cursor (st_connect w)))),
       EvConnect true :: body_reads req ++
         [EvCursor; EvExecute u e (hashpw env pw (gensalt env)) (Failed ex);
          EvRollback; EvCursorClose; EvConnClose])
| PathInternalError u e pw ex :
    connect_error env = None ->
    data_get (payload_of req) "username" = Return u ->
    data_get (payload_of req) "email" = Return e ->
    data_get (payload_of req) "password" = Return (PStr pw) ->
    all_truthy u e (PStr pw) = true ->
    execute_result env = Failed ex ->
    is_integrity_error ex = false ->
    handler_path req env w
      (Return (response_internal_error ex),
       st_conn_close (st_cursor_close
         (st_print ("Error al registrar usuario: " +:+ str_exn ex)
            (st_rollback (st_cursor (st_connect w))))),
       EvConnect true :: body_reads req ++
         [EvCursor; EvExecute u e (hashpw env pw (gensalt env)) (Failed ex);
          EvRollback; EvCursorClose; EvConnClose]).

(** ** Concrete inputs *)

(** A stand-in for bcrypt with the shape of its output: the salt, then a
    digest (here the password reversed). *)
Definition toy_hashpw (password salt : string) : string :=
  salt +:+ String.rev password.

Definition idle : world := mkWorld [] [] [] 0 0 [].

Definition accepting_store : environment :=
  mkEnv None "$2b$12$abcdefghijklmnopqrstuv" toy_hashpw (Inserted 1).

Definition store_down : environment :=
  mkEnv (Some "could not connect to server: Connection refused")
        "$2b$12$abcdefghijklmnopqrstuv" toy_hashpw (Inserted 1).

Definition duplicate_key : exn :=
  Psycopg2Error IntegrityError "23505"
    "duplicate key value violates unique constraint users_username_key".

Definition check_violation : exn :=
  Psycopg2Error IntegrityError "23514"
    "new row for relation users violates check constraint users_email_check".

Definition undefined_table : exn :=
  Psycopg2Error ProgrammingError "42P01" "relation users does not exist".

Definition failing_store (ex : exn) : environment :=
  mkEnv None "$2b$12$abcdefghijklmnopqrstuv" toy_hashpw (Failed ex).

Definition json_request (fields : list (string * pyval)) : request :=
  mkRequest (PDict (list_to_map fields)) [].

Definition ana_request : request :=
  json_request [("username", PStr "ana"); ("email", PStr "ana@example.com");
                ("password", PStr "Secret123")].

Definition bob_request : request := json_request [("username", PStr "bob")].

Definition ana_form_request : request :=
  mkRequest PNone [("username", "ana"); ("email", "ana@example.com");
                   ("password", "Secret123")].

Definition numeric_password_request : request :=
  json_request [("username", PStr "ana"); ("email", PStr "ana@example.com");
                ("password", PInt 12345)].

Definition json_array_request : request := mkRequest (PList []) [].

Definition zero_username_request : request :=
  json_request [("username", PInt 0); ("email", PStr "ana@example.com");
                ("password", PStr "Secret123")].

(** ** The configuration *)

(** [os.environ.get(key, default)]: the value of the variable when it is
    set, whatever it is, and the default only when it is not. *)
Definition os_environ_get (environ : gmap string string) (key default : string)
    : string :=
  match environ !! key with
  | Some value => value
  | None => default
  end.

(** The four module-level settings of lines 11-14. *)
Record db_config : Type := mkConfig {
  DB_HOST : string;
  DB_NAME : string;
  DB_USER : string;
  DB_PASSWORD : string
}.

(** Lines 11-14, evaluated when the module is loaded. *)
Definition load_config (environ : gmap string string) : db_config :=
  mkConfig (os_environ_get environ "DB_HOST" "postgres")
           (os_environ_get environ "POSTGRES_DB" "chatdb")
           (os_environ_get environ "POSTGRES_USER" "appuser")
           (os_environ_get environ "POSTGRES_PASSWORD" "secretpassword").

(** ** The handler over any driver

    [register_user] above runs against a driver whose only fault is the
    answer to the INSERT.  The same statements are given here over the calls
    of an arbitrary driver, so that a fault can be placed in any of them. *)

Record driver : Type := mkDriver {
  drv_connect : M connection;
  drv_cursor : connection -> M cursor;
  drv_execute : cursor -> pyval -> pyval -> string -> M unit;
  drv_fetchone : cursor -> M (option Z);
  drv_commit : connection -> M unit;
  drv_rollback : connection -> M unit;
  drv_cursor_close : cursor -> M unit;
  drv_conn_close : connection -> M unit
}.

(** The driver of the sections above. *)
Definition psycopg2 : driver :=
  mkDriver psycopg2_connect conn_cursor cursor_execute cursor_fetchone
           conn_commit conn_rollback cursor_close conn_close.

(** Lines 16-30. *)
Definition get_db_connection_on (d : driver) : M (option connection) :=
  try_except
    (let* conn := drv_connect d in
     ret (Some conn))
    (fun e =>
       if is_operational_error e then
         Some (print ("ERROR: No se pudo conectar a la base de datos. Detalles: "
                      +:+ str_exn e) >>
               ret None)
       else None).

(** Lines 40-104. *)
Definition register_user_on (d : driver) (request : request) : M response :=
  let* conn := get_db_connection_on d in
  match conn with
  | None => ret response_store_unavailable
  | Some conn =>
      let* json := request_get_json request in
      let* data := match json with
                   | PNone => request_form request
                   | _ => ret (JsonData json)
                   end in
      let* username := lift (data_get data "username") in
      let* email := lift (data_get data "email") in
      let* password := lift (data_get data "password") in
      if negb (truthy username) || negb (truthy email) || negb (truthy password) then
        drv_conn_close d conn >>
        ret response_missing_fields
      else
        let* password_bytes := lift (str_encode password) in
        let* hashed_password := bcrypt_hashpw password_bytes in
        let* cursor := drv_cursor d conn in
        try_finally
          (try_except
             (drv_execute d cursor username email hashed_password >>
              let* row := drv_fetchone d cursor in
              let* user_id := lift (subscript0 row) in
              drv_commit d conn >>
              ret (response_created user_id username email))
             (fun e =>
                if is_integrity_error e then
                  Some (drv_rollback d conn >>
                        ret response_conflict)
                else
                  Some (drv_rollback d conn >>
                        print ("Error al registrar usuario: " +:+ str_exn e) >>
                        ret (response_internal_error e))))
          (drv_cursor_close d cursor >>
           drv_conn_close d conn)
  end.

(** A call the driver does not carry out: it is recorded and raises. *)
Definition refused {A : Type} (ev : event) (ex : exn) : M A :=
  emit ev >> raise ex.

(** [psycopg2.connect] raises [ex], whatever its class. *)
Definition connect_raises (ex : exn) : driver :=
  mkDriver (refused (EvConnect false) ex) conn_cursor cursor_execute cursor_fetchone
           conn_commit conn_rollback cursor_close conn_close.

(** [conn.cursor()] raises [ex]. *)
Definition cursor_raises (ex : exn) : driver :=
  mkDriver psycopg2_connect (fun _ => refused EvCursor ex) cursor_execute
           cursor_fetchone conn_commit conn_rollback cursor_close conn_close.

(** [cursor.fetchone()] hands back no row. *)
Definition fetchone_empty : driver :=
  mkDriver psycopg2_connect conn_cursor cursor_execute
           (fun _ => emit EvFetchone >> ret None)
           conn_commit conn_rollback cursor_close conn_close.

(** [conn.commit()] raises [ex]; what was written stays uncommitted. *)
Definition commit_raises (ex : exn) : driver :=
  mkDriver psycopg2_connect conn_cursor cursor_execute cursor_fetchone
           (fun _ => refused EvCommit ex) conn_rollback cursor_close conn_close.

(** [conn.rollback()] raises [ex]. *)
Definition rollback_raises (ex : exn) : driver :=
  mkDriver psycopg2_connect conn_cursor cursor_execute cursor_fetchone
           conn_commit (fun _ => refused EvRollback ex) cursor_close conn_close.

(** [cursor.close()] raises [ex]; the cursor stays open. *)
Definition cursor_close_raises (ex : exn) : driver :=
  mkDriver psycopg2_connect conn_cursor cursor_execute cursor_fetchone
           conn_commit conn_rollback (fun _ => refused EvCursorClose ex) conn_close.

(** ** More observations *)

Definition is_raise {A : Type} (r : outcome A) : bool :=
  match r with
  | Raise _ => true
  | Return _ => false
  end.

(** The status of the response, when the run ended with one. *)
Definition status_of (r : outcome response) : option Z :=
  match r with
  | Return resp => Some (status resp)
  | Raise _ => None
  end.

(** The [user_id] of a 201 response. *)
Definition created_id (r : outcome response) : option Z :=
  match r with
  | Return resp =>
      if status resp =? 201 then
        match body resp !! "user_id" with
        | Some (PInt id) => Some id
        | _ => None
        end
      else None
  | Raise _ => None
  end.


Definition ana_with_role_request : request :=
  json_request [("role", PStr "admin"); ("username", PStr "ana");
                ("email", PStr "ana@example.com"); ("password", PStr "Secret123")].

Definition ana_other_password_request : request :=
  json_request [("username", PStr "ana"); ("email", PStr "ana@example.com");
                ("password", PStr "hunter2")].

Definition connection_lost : exn :=
  Psycopg2Error OperationalError "08006" "server closed the connection unexpectedly".

Definition already_closed : exn :=
  Psycopg2Error InterfaceError "" "connection already closed".

Definition invalid_dsn : exn :=
  Psycopg2Error ProgrammingError "" "invalid dsn: missing = after host".


(** ** Any combination of faults *)

(** Which calls of the driver raise during one run of the handler, and with
    what.  The INSERT is not listed: its outcome is [execute_result]. *)
Record fault_plan : Type := mkFaultPlan {
  (** [psycopg2.connect] raises this, of whatever class *)
  connect_fault : option exn;
  (** [conn.cursor()] raises this *)
  cursor_fault : option exn;
  (** [cursor.fetchone()] hands back no row *)
  fetchone_no_row : bool;
  (** [conn.commit()] raises this *)
  commit_fault : option exn;
  (** [conn.rollback()] raises this *)
  rollback_fault : option exn;
  (** [cursor.close()] raises this *)
  cursor_close_fault : option exn;
  (** [conn.close()] raises this *)
  conn_close_fault : option exn
}.

Definition no_faults : fault_plan :=
  mkFaultPlan None None false None None None None.

(** The call is carried out unless the plan has a fault for it. *)
Definition unless_fault {A : Type} (fault : option exn) (ev : event) (call : M A)
    : M A :=
  match fault with
  | Some ex => refused ev ex
  | None => call
  end.

(** The driver that follows a plan. *)
Definition faulty (f : fault_plan) : driver :=
  mkDriver
    (unless_fault (connect_fault f) (EvConnect false) psycopg2_connect)
    (fun conn => unless_fault (cursor_fault f) EvCursor (conn_cursor conn))
    cursor_execute
    (fun c => if fetchone_no_row f then emit EvFetchone >> ret None
              else cursor_fetchone c)
    (fun conn => unless_fault (commit_fault f) EvCommit (conn_commit conn))
    (fun conn => unless_fault (rollback_fault f) EvRollback (conn_rollback conn))
    (fun c => unless_fault (cursor_close_fault f) EvCursorClose (cursor_close c))
    (fun conn => unless_fault (conn_close_fault f) EvConnClose (conn_close conn)).

(** Whether the plan lets the call return. *)
Definition returns (fault : option exn) : bool :=
  match fault with
  | None => true
  | Some _ => false
  end.

(** Lines 64-104 over a driver: what the handler does with the fields once
    the password is hashed. *)
Definition insert_and_answer (d : driver) (conn : connection)
    (username email : pyval) (hashed_password : string) : M response :=
  let* cursor := drv_cursor d conn in
  try_finally
    (try_except
       (drv_execute d cursor username email hashed_password >>
        let* row := drv_fetchone d cursor in
        let* user_id := lift (subscript0 row) in
        drv_commit d conn >>
        ret (response_created user_id username email))
       (fun e =>
          if is_integrity_error e then
            Some (drv_rollback d conn >>
                  ret response_conflict)
          else
            Some (drv_rollback d conn >>
                  print ("Error al registrar usuario: " +:+ str_exn e) >>
                  ret (response_internal_error e))))
    (drv_cursor_close d cursor >>
     drv_conn_close d conn).

(** The calls handled one after the other, each with its own faults. *)
Fixpoint serve_on (calls : list (fault_plan * request * environment)) (w : world)
    : list (outcome response) * world * list event :=
  match calls with
  | [] => ([], w, [])
  | (f, req, env) :: rest =>
      let '(r, w1, t1) := register_user_on (faulty f) req env w in
      let '(rs, w2, t2) := serve_on rest w1 in
      (r :: rs, w2, t1 ++ t2)
  end.

Definition is_connected (e : event) : bool :=
  match e with EvConnect true => true | _ => false end.

Definition is_conn_close (e : event) : bool :=
  match e with EvConnClose => true | _ => false end.

Definition is_cursor_open (e : event) : bool :=
  match e with EvCursor => true | _ => false end.

Definition is_cursor_close (e : event) : bool :=
  match e with EvCursorClose => true | _ => false end.

(** How many events of a kind the trace holds. *)
Definition count (kind : event -> bool) (t : list event) : nat :=
  length (List.filter kind t).

Definition closes_connection (t : list event) : bool := existsb is_conn_close t.

(** The rows a run over a plan adds to the table, for fields that reached
    line 64: the row of the INSERT, when it was accepted and the commit was
    reached and returned. *)
Definition committed_rows (f : fault_plan) (env : environment)
    (u e : pyval) (h : string) : list user_row :=
  match execute_result env with
  | Inserted id =>
      if returns (cursor_fault f) && negb (fetchone_no_row f)
         && returns (commit_fault f)
      then [mkRow id u e h] else []
  | Failed _ => []
  end.

(** The ways through the handler before line 64, over a plan of faults. *)
Inductive faulty_path (f : fault_plan) (req : request) (env : environment) (w : world)
  : outcome response * world * list event -> Prop :=
| FaultyConnectEscapes ex :
    connect_fault f = Some ex ->
    is_operational_error ex = false ->
    faulty_path f req env w (Raise ex, w, [EvConnect false])
| FaultyConnectCaught ex :
    connect_fault f = Some ex ->
    is_operational_error ex = true ->
    faulty_path f req env w
      (Return response_store_unavailable,
       st_print ("ERROR: No se pudo conectar a la base de datos. Detalles: "
                 +:+ str_exn ex) w,
       [EvConnect false])
| FaultyStoreUnavailable msg :
    connect_fault f = None ->
    connect_error env = Some msg ->
    faulty_path f req env w
      (Return response_store_unavailable,
       st_print ("ERROR: No se pudo conectar a la base de datos. Detalles: " +:+ msg) w,
       [EvConnect false])
| FaultyNotAMapping v :
    connect_fault f = None ->
    connect_error env = None ->
    payload_of req = JsonData v ->
    (forall m, v <> PDict m) ->
    faulty_path f req env w
      (Raise (no_attribute v "get"), st_connect w, [EvConnect true; EvGetJson])
| FaultyMissingFields u e p :
    connect_fault f = None ->
    connect_error env = None ->
    data_get (payload_of req) "username" = Return u ->
    data_get (payload_of req) "email" = Return e ->
    data_get (payload_of req) "password" = Return p ->
    all_truthy u e p = false ->
    conn_close_fault f = None ->
    faulty_path f req env w
      (Return response_missing_fields,
       st_conn_close (st_connect w),
       EvConnect true :: body_reads req ++ [EvConnClose])
| FaultyMissingFieldsCloseRaises u e p ex :
    connect_fault f = None ->
    connect_error env = None ->
    data_get (payload_of req) "username" = Return u ->
    data_get (payload_of req) "email" = Return e ->
    data_get (payload_of req) "password" = Return p ->
    all_truthy u e p = false ->
    conn_close_fault f = Some ex ->
    faulty_path f req env w
      (Raise ex, st_connect w, EvConnect true :: body_reads req ++ [EvConnClose])
| FaultyPasswordNotStr u e p :
    connect_fault f = None ->
    connect_error env = None ->
    data_get (payload_of req) "username" = Return u ->
    data_get (payload_of req) "email" = Return e ->
    data_get (payload_of req) "password" = Return p ->
    all_truthy u e p = true ->
    is_str p = false ->
    faulty_path f req env w
      (Raise (no_attribute p "encode"), st_connect w, EvConnect true :: body_reads req)
| FaultyHashed u e pw :
    connect_fault f = None ->
    connect_error env = None ->
    data_get (payload_of req) "username" = Return u ->
    data_get (payload_of req) "email" = Return e ->
    data_get (payload_of req) "password" = Return (PStr pw) ->
    all_truthy u e (PStr pw) = true ->
    faulty_path f req env w
      (result_of (insert_and_answer (faulty f) PgConnection u e
                    (hashpw env pw (gensalt env)) env (st_connect w)),
       world_of (insert_and_answer (faulty f) PgConnection u e
                   (hashpw env pw (gensalt env)) env (st_connect w)),
       EvConnect true :: body_reads req ++
         trace_of (insert_and_answer (faulty f) PgConnection u e
                     (hashpw env pw (gensalt env)) env (st_connect w))).

(** ** One equation per path

    The claims below are read off these equations. *)

Ltac unfold_handler :=
  cbv [register_user get_db_connection try_except try_finally bind ret raise lift
       psycopg2_connect conn_cursor cursor_execute cursor_fetchone conn_commit
       conn_rollback cursor_close conn_close request_get_json request_form
       bcrypt_hashpw print emit modify ask get_world subscript0].

(** Splits on the JSON payload and replaces the three [data.get] by their
    values. *)
Ltac read_fields Hu He Hp :=
  unfold payload_of, body_reads in *;
  match goal with
  | |- context [get_json_silent ?r] => destruct (get_json_silent r)
  end;
  cbn in Hu, He, Hp; try discriminate;
  injection Hu as Hu; injection He as He; injection Hp as Hp;
  cbn; rewrite ?Hu, ?He, ?Hp.

Lemma all_truthy_true (u e p : pyval) :
  all_truthy u e p = true ->
  truthy u = true /\ truthy e = true /\ truthy p = true.
Proof.
  unfold all_truthy. destruct (truthy u), (truthy e), (truthy p); cbn; auto.
Qed.

Lemma all_truthy_test (u e p : pyval) :
  negb (truthy u) || negb (truthy e) || negb (truthy p) = negb (all_truthy u e p).
Proof.
  unfold all_truthy. by destruct (truthy u), (truthy e), (truthy p).
Qed.

Section Paths.
Variables (req : request) (env : environment) (w : world).

Lemma path_store_unavailable msg :
  connect_error env = Some msg ->
  register_user req env w =
    (Return response_store_unavailable,
     st_print ("ERROR: No se pudo conectar a la base de datos. Detalles: " +:+ msg) w,
     [EvConnect false]).
Proof.
  intros Hc. unfold_handler. rewrite Hc. reflexivity.
Qed.

Lemma path_not_a_mapping v :
  connect_error env = None ->
  payload_of req = JsonData v ->
  (forall m, v <> PDict m) ->
  register_user req env w =
    (Raise (no_attribute v "get"), st_connect w, [EvConnect true; EvGetJson]).
Proof.
  intros Hc Hd Hv. unfold_handler. rewrite Hc. cbn.
  unfold payload_of in Hd.
  destruct (get_json_silent req); try discriminate;
    injection Hd as <-; try reflexivity.
  exfalso. eapply Hv. reflexivity.
Qed.

Variables (u e p : pyval).
Hypothesis Hconn : connect_error env = None.
Hypothesis Hu : data_get (payload_of req) "username" = Return u.
Hypothesis He : data_get (payload_of req) "email" = Return e.
Hypothesis Hp : data_get (payload_of req) "password" = Return p.

Lemma path_missing_fields :
  all_truthy u e p = false ->
  register_user req env w =
    (Return response_missing_fields,
     st_conn_close (st_connect w),
     EvConnect true :: body_reads req ++ [EvConnClose]).
Proof.
  intros Ht. unfold_handler. rewrite Hconn. cbn.
  read_fields Hu He Hp; rewrite all_truthy_test, Ht; reflexivity.
Qed.

Lemma path_password_not_str :
  all_truthy u e p = true ->
  is_str p = false ->
  register_user req env w =
    (Raise (no_attribute p "encode"),
     st_connect w,
     EvConnect true :: body_reads req).
Proof.
  intros Ht Hs. unfold_handler. rewrite Hconn. cbn.
  read_fields Hu He Hp; rewrite all_truthy_test, Ht;
    destruct p; try discriminate; reflexivity.
Qed.

Variable pw : string.
Hypothesis Hpw : p = PStr pw.
Hypothesis Htruthy : all_truthy u e p = true.

Lemma path_created id :
  execute_result env = Inserted id ->
  register_user req env w =
    (Return (response_created id u e),
     st_conn_close (st_cursor_close (st_commit (st_fetched []
       (st_insert (mkRow id u e (hashpw env pw (gensalt env)))
          (st_cursor (st_connect w)))))),
     EvConnect true :: body_reads req ++
       [EvCursor; EvExecute u e (hashpw env pw (gensalt env)) (Inserted id);
        EvFetchone; EvCommit; EvCursorClose; EvConnClose]).
Proof.
  intros Hx. unfold_handler. rewrite Hconn. cbn. subst p.
  read_fields Hu He Hp; rewrite all_truthy_test, Htruthy; cbn;
    rewrite Hx; reflexivity.
Qed.

Lemma path_conflict ex :
  execute_result env = Failed ex ->
  is_integrity_error ex = true ->
  register_user req env w =
    (Return response_conflict,
     st_conn_close (st_cursor_close (st_rollback (st_cursor (st_connect w)))),
     EvConnect true :: body_reads req ++
       [EvCursor; EvExecute u e (hashpw env pw (gensalt env)) (Failed ex);
        EvRollback; EvCursorClose; EvConnClose]).
Proof.
  intros Hx Hi. unfold_handler. rewrite Hconn. cbn. subst p.
  read_fields Hu He Hp; rewrite all_truthy_test, Htruthy; cbn;
    rewrite Hx; cbn; rewrite Hi; reflexivity.
Qed.

Lemma path_internal_error ex :
  execute_result env = Failed ex ->
  is_integrity_error ex = false ->
  register_user req env w =
    (Return (response_internal_error ex),
     st_conn_close (st_cursor_close
       (st_print ("Error al registrar usuario: " +:+ str_exn ex)
          (st_rollback (st_cursor (st_connect w))))),
     EvConnect true :: body_reads req ++
       [EvCursor; EvExecute u e (hashpw env pw (gensalt env)) (Failed ex);
        EvRollback; EvCursorClose; EvConnClose]).
Proof.
  intros Hx Hi. unfold_handler. rewrite Hconn. cbn. subst p.
  read_fields Hu He Hp; rewrite all_truthy_test, Htruthy; cbn;
    rewrite Hx; cbn; rewrite Hi; reflexivity.
Qed.
End Paths.

(** [data.get] raises for every key or for none. *)
Lemma data_get_mapping_or_not (d : payload) :
  (exists v, d = JsonData v /\ forall m, v <> PDict m)
  \/ (forall key, exists x, data_get d key = Return x).
Proof.
  destruct d as [v | f].
  - destruct v; try (left; eexists; split; [reflexivity | discriminate]).
    right. intros key. eexists. reflexivity.
  - right. intros key. eexists. reflexivity.
Qed.

(** The paths are all there is: every run of the handler is one of them. *)
Lemma register_user_path (req : request) (env : environment) (w : world) :
  handler_path req env w (register_user req env w).
Proof.
  destruct (connect_error env) as [msg |] eqn:Hc.
  { rewrite (path_store_unavailable _ _ _ msg Hc). by constructor. }
  destruct (data_get_mapping_or_not (payload_of req)) as [(v & Hd & Hv) | Hget].
  { rewrite (path_not_a_mapping _ _ _ v Hc Hd Hv). by constructor. }
  destruct (Hget "username") as [u Hu], (Hget "email") as [e He],
    (Hget "password") as [p Hp].
  destruct (all_truthy u e p) eqn:Ht.
  2: { rewrite (path_missing_fields _ _ _ u e p Hc Hu He Hp Ht). by econstructor. }
  destruct (is_str p) eqn:Hs.
  2: { rewrite (path_password_not_str _ _ _ u e p Hc Hu He Hp Ht Hs). by econstructor. }
  destruct p as [| | | | pw | |]; try discriminate.
  destruct (execute_result env) as [id | ex] eqn:Hx.
  { rewrite (path_created _ _ _ u e _ Hc Hu He Hp pw eq_refl Ht id Hx). by econstructor. }
  destruct (is_integrity_error ex) eqn:Hi.
  - rewrite (path_conflict _ _ _ u e _ Hc Hu He Hp pw eq_refl Ht ex Hx Hi).
    by econstructor.
  - rewrite (path_internal_error _ _ _ u e _ Hc Hu He Hp pw eq_refl Ht ex Hx Hi).
    by econstructor.
Qed.

(** Reading the body sends nothing to the store. *)
Lemma inserted_id_body_reads (req : request) (t : list event) :
  inserted_id (body_reads req ++ t) = inserted_id t.
Proof. unfold body_reads. by destruct (get_json_silent req). Qed.

Lemma insert_failure_body_reads (req : request) (t : list event) :
  insert_failure (body_reads req ++ t) = insert_failure t.
Proof. unfold body_reads. by destruct (get_json_silent req). Qed.

Lemma existsb_body_reads (f : event -> bool) (req : request) (t : list event) :
  f EvGetJson = false -> f EvForm = false ->
  existsb f (body_reads req ++ t) = existsb f t.
Proof.
  intros Hj Hf. unfold body_reads.
  destruct (get_json_silent req); cbn; rewrite ?Hj, ?Hf; reflexivity.
Qed.

Lemma inserted_id_only_body_reads (req : request) :
  inserted_id (body_reads req) = None.
Proof. unfold body_reads. by destruct (get_json_silent req). Qed.

Lemma insert_failure_only_body_reads (req : request) :
  insert_failure (body_reads req) = None.
Proof. unfold body_reads. by destruct (get_json_silent req). Qed.

Lemma existsb_only_body_reads (f : event -> bool) (req : request) :
  f EvGetJson = false -> f EvForm = false ->
  existsb f (body_reads req) = false.
Proof.
  intros Hj Hf. unfold body_reads.
  destruct (get_json_silent req); cbn; rewrite ?Hj, ?Hf; reflexivity.
Qed.

(** Case analysis on the path a run took, everywhere the run is mentioned. *)
Ltac on_path req env w :=
  let Hpath := fresh "Hpath" in
  let run := fresh "run" in
  let Hrun := fresh "Hrun" in
  pose proof (register_user_path req env w) as Hpath;
  remember (register_user req env w) as run eqn:Hrun;
  clear Hrun;
  destruct Hpath;
  unfold result_of, world_of, trace_of, attempts_insert, commits, rolls_back in *;
  cbn [fst snd] in *;
  cbn [inserted_id insert_failure existsb] in *;
  rewrite ?inserted_id_body_reads, ?insert_failure_body_reads,
    ?inserted_id_only_body_reads, ?insert_failure_only_body_reads in *;
  rewrite ?existsb_body_reads, ?existsb_only_body_reads in * by reflexivity;
  cbn [inserted_id insert_failure existsb is_execute is_commit is_rollback orb] in *.

(** Two readings of the same field are the same value. *)
Ltac same_field :=
  repeat match goal with
  | H1 : data_get ?d ?k = Return ?x, H2 : data_get ?d ?k = Return ?y |- _ =>
      rewrite H1 in H2; injection H2 as H2; subst
  end.

(** A form request has no JSON payload to call [get] on. *)
Ltac no_json_payload Hj :=
  match goal with
  | H : payload_of _ = JsonData _ |- _ =>
      unfold payload_of in H; rewrite Hj in H; discriminate H
  end.

(** ** Registration succeeds *)

Lemma response_created_body (id : Z) (u e : pyval) :
  body (response_created id u e) !! "user_id" = Some (PInt id)
  /\ body (response_created id u e) !! "usuario" = Some u
  /\ body (response_created id u e) !! "correo" = Some e.
Proof. repeat split; reflexivity. Qed.

(** C1. A request whose body yields non-empty [username], [email] and
    [password] and whose INSERT the store accepts: the handler commits,
    answers 201 with the generated id as [user_id], the username as
    [usuario] and the email as [correo], and the table has exactly one row
    more, holding the bcrypt hash of the password. *)
Theorem register_success (req : request) (env : environment) (w : world)
    (u e p : pyval) (uid : Z) :
  data_get (payload_of req) "username" = Return u -> truthy u = true ->
  data_get (payload_of req) "email" = Return e -> truthy e = true ->
  data_get (payload_of req) "password" = Return p -> truthy p = true ->
  inserted_id (trace_of (register_user req env w)) = Some uid ->
  exists pw resp,
    p = PStr pw
    /\ result_of (register_user req env w) = Return resp
    /\ status resp = 201
    /\ body resp !! "user_id" = Some (PInt uid)
    /\ body resp !! "usuario" = Some u
    /\ body resp !! "correo" = Some e
    /\ commits (trace_of (register_user req env w)) = true
    /\ rolls_back (trace_of (register_user req env w)) = false
    /\ users (world_of (register_user req env w)) =
         users w ++ [mkRow uid u e (hashpw env pw (gensalt env))]
    /\ pending (world_of (register_user req env w)) = [].
Proof.
  intros Hu Tu He Te Hp Tp Hins.
  on_path req env w; try discriminate; same_field.
  injection Hins as <-.
  do 2 eexists.
  repeat split; try reflexivity; apply response_created_body.
Qed.

Lemma register_success_witness :
  result_of (register_user ana_request accepting_store idle) =
    Return (response_created 1 (PStr "ana") (PStr "ana@example.com"))
  /\ users (world_of (register_user ana_request accepting_store idle)) =
       [mkRow 1 (PStr "ana") (PStr "ana@example.com")
              "$2b$12$abcdefghijklmnopqrstuv321terceS"].
Proof.
  destruct (register_success ana_request accepting_store idle
              (PStr "ana") (PStr "ana@example.com") (PStr "Secret123") 1)
    as (pw & resp & Hpw & _ & _ & _ & _ & _ & _ & _ & Hrows & _);
    try (vm_compute; reflexivity).
  injection Hpw as <-.
  split; [vm_compute; reflexivity | exact Hrows].
Defined.

(** ** The store refuses the row *)

Lemma unique_violation_is_integrity_error (ex : exn) :
  is_unique_violation ex = true -> is_integrity_error ex = true.
Proof. destruct ex as [| | [] ? ?]; cbn; congruence. Qed.

(** C2. When the INSERT raises the store's uniqueness violation, the handler
    rolls back and does not commit, answers 409 with the message that the
    user or email is already registered, and the table is left as it was,
    with nothing pending. *)
Theorem duplicate_conflict (req : request) (env : environment) (w : world)
    (ex : exn) :
  insert_failure (trace_of (register_user req env w)) = Some ex ->
  is_unique_violation ex = true ->
  result_of (register_user req env w) = Return response_conflict
  /\ status response_conflict = 409
  /\ body response_conflict !! "message" =
       Some (PStr "Error: El usuario o correo electrónico ya está registrado.")
  /\ rolls_back (trace_of (register_user req env w)) = true
  /\ commits (trace_of (register_user req env w)) = false
  /\ users (world_of (register_user req env w)) = users w
  /\ pending (world_of (register_user req env w)) = [].
Proof.
  intros Hfail Huniq.
  apply unique_violation_is_integrity_error in Huniq.
  on_path req env w; try discriminate;
    injection Hfail as <-; try congruence.
  repeat split; reflexivity.
Qed.

Lemma duplicate_conflict_witness :
  result_of (register_user ana_request (failing_store duplicate_key) idle) =
    Return response_conflict
  /\ users (world_of (register_user ana_request (failing_store duplicate_key) idle)) = [].
Proof.
  destruct (duplicate_conflict ana_request (failing_store duplicate_key) idle
              duplicate_key)
    as (Hres & _ & _ & _ & _ & Hrows & _);
    try (vm_compute; reflexivity).
  split; [exact Hres | exact Hrows].
Defined.

(** C6 fails on the code.  When the INSERT raises because the connection to
    the store was lost, an error that is no uniqueness violation,
    [conn.rollback()] on line 97 raises in its turn: lines 98-99 are not
    reached, nothing is logged, no 500 is answered and the exception of the
    rollback leaves the handler.  And an [IntegrityError] that is no
    uniqueness violation (a CHECK violation, SQLSTATE 23514) is taken by the
    branch of line 90 and answered 409, not 500. *)
Theorem store_error_without_500 :
  (insert_failure
     (trace_of (register_user_on (rollback_raises already_closed) ana_request
                  (failing_store connection_lost) idle)) = Some connection_lost
   /\ is_unique_violation connection_lost = false
   /\ result_of (register_user_on (rollback_raises already_closed) ana_request
                   (failing_store connection_lost) idle) = Raise already_closed
   /\ stdout (world_of (register_user_on (rollback_raises already_closed) ana_request
                          (failing_store connection_lost) idle)) = [])
  /\ (insert_failure
        (trace_of (register_user ana_request (failing_store check_violation) idle)) =
        Some check_violation
      /\ is_unique_violation check_violation = false
      /\ result_of (register_user ana_request (failing_store check_violation) idle) =
           Return response_conflict
      /\ status response_conflict = 409).
Proof. repeat split; vm_compute; reflexivity. Qed.

(** ** Missing fields *)

(** One falsy required field is enough for the test of line 56, whatever
    the other two are. *)
Lemma falsy_field_once (req : request) (env : environment) (w : world)
    (key : string) (x : pyval) :
  connect_error env = None ->
  is_required key ->
  data_get (payload_of req) key = Return x ->
  truthy x = false ->
  register_user req env w =
    (Return response_missing_fields,
     st_conn_close (st_connect w),
     EvConnect true :: body_reads req ++ [EvConnClose]).
Proof.
  intros Hc Hkey Hget Hfalsy.
  on_path req env w; try congruence;
    try (exfalso;
         match goal with H : all_truthy _ _ _ = true |- _ =>
           apply all_truthy_true in H as (Tu & Te & Tp) end;
         destruct Hkey as [-> | [-> | ->]]; same_field; congruence).
  exfalso.
  match goal with H : payload_of req = JsonData _ |- _ => rewrite H in Hget end.
  destruct v; cbn in Hget; try discriminate.
  match goal with H : forall m, _ <> _ |- _ => by eapply H end.
Qed.

(** With a falsy required field no INSERT is sent and the table does not
    change, whether the store can be reached or not. *)
Lemma falsy_field_no_insert (req : request) (env : environment) (w : world)
    (key : string) (x : pyval) :
  is_required key ->
  data_get (payload_of req) key = Return x ->
  truthy x = false ->
  attempts_insert (trace_of (register_user req env w)) = false
  /\ users (world_of (register_user req env w)) = users w.
Proof.
  intros Hkey Hget Hfalsy.
  destruct (connect_error env) as [msg |] eqn:Hc.
  - rewrite (path_store_unavailable _ _ _ msg Hc). by split.
  - rewrite (falsy_field_once _ _ _ key x Hc Hkey Hget Hfalsy).
    unfold attempts_insert, trace_of, world_of. cbn.
    by rewrite existsb_body_reads.
Qed.

Lemma some_field_missing_falsy (req : request) :
  some_field_missing req ->
  exists key x,
    is_required key /\ data_get (payload_of req) key = Return x /\ truthy x = false.
Proof.
  unfold some_field_missing, field_missing, is_required.
  intros [[H | H] | [[H | H] | [H | H]]];
    eexists _, _; (split; [| split; [exact H | reflexivity]]); auto.
Qed.

Lemma serve_cons (req : request) (env : environment)
    (rest : list (request * environment)) (w : world) :
  serve ((req, env) :: rest) w =
    (result_of (register_user req env w)
       :: result_of (serve rest (world_of (register_user req env w))),
     world_of (serve rest (world_of (register_user req env w))),
     trace_of (register_user req env w)
       ++ trace_of (serve rest (world_of (register_user req env w)))).
Proof.
  cbn. destruct (register_user req env w) as [[r w1] t1]. cbn.
  destruct (serve rest w1) as [[rs w2] t2]. reflexivity.
Qed.

(** C3, as the code has it.  A request whose JSON object or form lacks
    [username], [email] or [password], or has it empty, repeated any number
    of times: no call sends an INSERT and the table does not change; and
    every call that gets its connection answers 400. *)
Theorem missing_fields_rejected (req : request) (envs : list environment)
    (w : world) :
  some_field_missing req ->
  (attempts_insert (trace_of (serve (map (pair req) envs) w)) = false
   /\ users (world_of (serve (map (pair req) envs) w)) = users w)
  /\ (Forall (fun env => connect_error env = None) envs ->
      result_of (serve (map (pair req) envs) w) =
        map (fun _ => Return response_missing_fields) envs
      /\ status response_missing_fields = 400).
Proof.
  intros Hmiss.
  apply some_field_missing_falsy in Hmiss as (key & x & Hkey & Hget & Hfalsy).
  split.
  - revert w. induction envs as [| env envs IH]; intros w; [by split |].
    cbn [map]. rewrite serve_cons.
    destruct (falsy_field_no_insert req env w key x Hkey Hget Hfalsy) as [Hno Hrows].
    destruct (IH (world_of (register_user req env w))) as [IHno IHrows].
    unfold attempts_insert, trace_of, world_of in *. cbn [fst snd] in *.
    split; [| congruence].
    rewrite existsb_app, Hno, IHno. reflexivity.
  - intros Hall. split; [| reflexivity].
    revert w. induction Hall as [| env envs Hc _ IH]; intros w; [reflexivity |].
    cbn [map]. rewrite serve_cons.
    unfold result_of in *. cbn [fst snd]. rewrite IH.
    by rewrite (falsy_field_once req env w key x Hc Hkey Hget Hfalsy).
Qed.

Lemma missing_fields_rejected_witness :
  result_of (serve (map (pair bob_request)
                        [accepting_store; accepting_store; accepting_store]) idle) =
    [Return response_missing_fields; Return response_missing_fields;
     Return response_missing_fields]
  /\ users (world_of (serve (map (pair bob_request)
                        [accepting_store; accepting_store; accepting_store]) idle)) = [].
Proof.
  destruct (missing_fields_rejected bob_request
              [accepting_store; accepting_store; accepting_store] idle)
    as [[_ Hrows] Hres].
  - right. left. left. vm_compute. reflexivity.
  - destruct Hres as [Hres _]; [repeat constructor |].
    split; [exact Hres | exact Hrows].
Defined.

(** C3 as the claim states it fails: a request without [email] and
    [password] is answered 500, not 400, when the store cannot be reached. *)
Lemma missing_fields_store_down_500 :
  some_field_missing bob_request
  /\ result_of (register_user bob_request store_down idle) =
       Return response_store_unavailable
  /\ status response_store_unavailable = 500
  /\ status response_store_unavailable <> 400.
Proof.
  split; [right; left; left; vm_compute; reflexivity |].
  repeat split; try (vm_compute; reflexivity). discriminate.
Qed.

(** ** The connection comes first *)

(** C5. The first call of every run is [psycopg2.connect].  When it fails
    the handler answers 500 without a look at the body: the trace holds no
    read of the request, and the run is the same for every request. *)
Theorem connection_acquired_first (req : request) (env : environment) (w : world) :
  head (trace_of (register_user req env w)) = Some (EvConnect (store_reachable env))
  /\ (store_reachable env = false ->
      result_of (register_user req env w) = Return response_store_unavailable
      /\ status response_store_unavailable = 500
      /\ reads_body (trace_of (register_user req env w)) = false
      /\ forall req', register_user req' env w = register_user req env w).
Proof.
  unfold store_reachable. split.
  - on_path req env w;
      match goal with H : connect_error env = _ |- _ => rewrite H end; reflexivity.
  - destruct (connect_error env) as [msg |] eqn:Hc; [intros _ | discriminate].
    rewrite (path_store_unavailable req env w msg Hc).
    repeat split. intros req'. apply path_store_unavailable, Hc.
Qed.

Lemma connection_acquired_first_witness :
  result_of (register_user ana_request store_down idle) =
    Return response_store_unavailable
  /\ reads_body (trace_of (register_user ana_request store_down idle)) = false.
Proof.
  destruct (connection_acquired_first ana_request store_down idle) as [_ Hdown].
  destruct Hdown as (Hres & _ & Hbody & _); [reflexivity |].
  split; [exact Hres | exact Hbody].
Defined.

(** ** What gets out of the handler, and with which handles open *)

(** On every way out by [return] the connection and the cursor are closed. *)
Lemma handles_released_on_return (req : request) (env : environment) (w : world)
    (resp : response) :
  result_of (register_user req env w) = Return resp ->
  open_connections (world_of (register_user req env w)) = open_connections w
  /\ open_cursors (world_of (register_user req env w)) = open_cursors w.
Proof.
  intros Hres. on_path req env w; try discriminate; by split.
Qed.

(** The statements between the connect and the [try] (lines 47-64) are not
    guarded: an exception there leaves the handler, and the connection open. *)
Lemma raise_leaves_connection_open (req : request) (env : environment) (w : world)
    (ex : exn) :
  result_of (register_user req env w) = Raise ex ->
  (exists v attr, ex = no_attribute v attr)
  /\ open_connections (world_of (register_user req env w)) = S (open_connections w).
Proof.
  intros Hres. on_path req env w; try discriminate;
    injection Hres as <-; (split; [by eexists _, _ | reflexivity]).
Qed.

(** C7 fails on the code.  A JSON object whose [password] is a number
    passes the test of line 56 and raises at [password.encode] on line 62,
    outside the [try]: [conn.close()] is never called and the connection
    stays open. *)
Theorem numeric_password_leaks_connection :
  result_of (register_user numeric_password_request accepting_store idle) =
    Raise (AttributeError "'int' object has no attribute 'encode'")
  /\ trace_of (register_user numeric_password_request accepting_store idle) =
       [EvConnect true; EvGetJson]
  /\ open_connections (world_of (register_user numeric_password_request
                                   accepting_store idle)) = 1%nat
  /\ open_connections idle = 0%nat.
Proof. repeat split; vm_compute; reflexivity. Qed.

(** C8 fails on the code.  A JSON payload that is not an object (here the
    empty array) has no [get]: line 51 raises an [AttributeError] that no
    [except] clause covers, and it leaves the handler. *)
Theorem json_array_escapes_handler :
  result_of (register_user json_array_request accepting_store idle) =
    Raise (AttributeError "'list' object has no attribute 'get'")
  /\ stdout (world_of (register_user json_array_request accepting_store idle)) = [].
Proof. split; vm_compute; reflexivity. Qed.

(** ** Falsy fields *)

(** C10, as the code has it.  With the connection established, a JSON
    object that binds [username], [email] or [password] to a falsy value
    that is not a string ([0], [false], [null], [[]]) is answered like the
    object without that key: 400, no INSERT, the table unchanged. *)
Theorem falsy_field_rejected (req : request) (env : environment) (w : world)
    (m : gmap string pyval) (key : string) (v : pyval) :
  connect_error env = None ->
  get_json_silent req = PDict m ->
  is_required key ->
  m !! key = Some v ->
  truthy v = false ->
  is_str v = false ->
  result_of (register_user req env w) = Return response_missing_fields
  /\ status response_missing_fields = 400
  /\ attempts_insert (trace_of (register_user req env w)) = false
  /\ users (world_of (register_user req env w)) = users w
  /\ register_user req env w =
       register_user (mkRequest (PDict (delete key m)) (form req)) env w.
Proof.
  intros Hc Hjson Hkey Hv Hfalsy _.
  assert (Hget : data_get (payload_of req) key = Return v).
  { unfold payload_of. rewrite Hjson. cbn. by rewrite Hv. }
  assert (Hget' : data_get (payload_of (mkRequest (PDict (delete key m)) (form req)))
                    key = Return PNone).
  { cbn. by rewrite lookup_delete_eq. }
  destruct (falsy_field_no_insert req env w key v Hkey Hget Hfalsy) as [Hno Hrows].
  rewrite (falsy_field_once _ _ _ key PNone Hc Hkey Hget' eq_refl).
  rewrite (falsy_field_once req env w key v Hc Hkey Hget Hfalsy) in *.
  repeat split; try assumption.
  unfold body_reads. cbn. by rewrite Hjson.
Qed.

Lemma falsy_field_rejected_witness :
  result_of (register_user zero_username_request accepting_store idle) =
    Return response_missing_fields
  /\ attempts_insert (trace_of (register_user zero_username_request
                                  accepting_store idle)) = false.
Proof.
  destruct (falsy_field_rejected zero_username_request accepting_store idle
              (list_to_map [("username", PInt 0); ("email", PStr "ana@example.com");
                            ("password", PStr "Secret123")])
              "username" (PInt 0))
    as (Hres & _ & Hno & _);
    try (vm_compute; reflexivity).
  - left. reflexivity.
  - split; [exact Hres | exact Hno].
Defined.

(** C10 as the claim states it fails: the same request is answered 500,
    not 400, when the store cannot be reached. *)
Lemma falsy_field_store_down_500 :
  json_field zero_username_request "username" = Some (PInt 0)
  /\ truthy (PInt 0) = false
  /\ is_str (PInt 0) = false
  /\ result_of (register_user zero_username_request store_down idle) =
       Return response_store_unavailable
  /\ status response_store_unavailable = 500
  /\ status response_store_unavailable <> 400.
Proof. repeat split; try (vm_compute; reflexivity). discriminate. Qed.

(** ** JSON first, the form as fallback *)

Lemma form_as_dict_get (f : list (string * string)) (key : string) :
  default PNone (form_as_dict f !! key) = multidict_get f key.
Proof.
  unfold form_as_dict. induction f as [| [k v] f IH]; [reflexivity |].
  cbn [map list_to_map foldr fst snd multidict_get].
  fold (list_to_map (M := gmap string pyval) (map (fun kv => (kv.1, PStr kv.2)) f)).
  destruct (String.eqb_spec k key) as [-> | Hne].
  - by rewrite lookup_insert_eq.
  - by rewrite lookup_insert_ne.
Qed.

Lemma as_json_request_fields (req : request) (key : string) :
  get_json_silent req = PNone ->
  data_get (payload_of (as_json_request req)) key = data_get (payload_of req) key.
Proof.
  intros Hj. unfold payload_of. rewrite Hj. cbn. by rewrite form_as_dict_get.
Qed.

(** When the request carries JSON, the form plays no part. *)
Lemma json_ignores_form (req : request) (env : environment) (w : world)
    (f : list (string * string)) :
  get_json_silent req <> PNone ->
  register_user (mkRequest (get_json_silent req) f) env w = register_user req env w.
Proof.
  intros Hj. unfold_handler. cbn.
  destruct (connect_error env); [reflexivity |]. cbn.
  by destruct (get_json_silent req).
Qed.

Lemma json_never_reads_form (req : request) (env : environment) (w : world) :
  get_json_silent req <> PNone ->
  reads_form (trace_of (register_user req env w)) = false.
Proof.
  intros Hj.
  assert (Hreads : body_reads req = [EvGetJson]).
  { unfold body_reads. by destruct (get_json_silent req). }
  unfold reads_form.
  on_path req env w; rewrite ?Hreads; reflexivity.
Qed.

Lemma form_read_after_get_json (req : request) (env : environment) (w : world) :
  get_json_silent req = PNone ->
  store_reachable env = true ->
  exists rest,
    trace_of (register_user req env w) = EvConnect true :: EvGetJson :: EvForm :: rest
    /\ reads_body rest = false.
Proof.
  intros Hj Hreach.
  assert (Hreads : body_reads req = [EvGetJson; EvForm]).
  { unfold body_reads. by rewrite Hj. }
  unfold store_reachable in Hreach.
  on_path req env w; rewrite ?Hreads; try no_json_payload Hj; try by eexists.
  match goal with H : connect_error env = Some _ |- _ => rewrite H in Hreach end.
  discriminate.
Qed.

(** A form is handled like the JSON object with the same fields. *)
Lemma form_handled_like_json (req : request) (env : environment) (w : world) :
  get_json_silent req = PNone ->
  result_of (register_user req env w) = result_of (register_user (as_json_request req) env w)
  /\ world_of (register_user req env w) = world_of (register_user (as_json_request req) env w).
Proof.
  intros Hj.
  on_path req env w; try no_json_payload Hj;
    repeat match goal with
    | H : data_get (payload_of req) _ = _ |- _ =>
        rewrite <- (as_json_request_fields req _ Hj) in H
    end.
  - by rewrite (path_store_unavailable (as_json_request req) env w msg).
  - by rewrite (path_missing_fields (as_json_request req) env w u e p).
  - by rewrite (path_password_not_str (as_json_request req) env w u e p).
  - by rewrite (path_created (as_json_request req) env w u e (PStr pw)
                  ltac:(assumption) ltac:(assumption) ltac:(assumption)
                  ltac:(assumption) pw eq_refl ltac:(assumption) id).
  - by rewrite (path_conflict (as_json_request req) env w u e (PStr pw)
                  ltac:(assumption) ltac:(assumption) ltac:(assumption)
                  ltac:(assumption) pw eq_refl ltac:(assumption) ex).
  - by rewrite (path_internal_error (as_json_request req) env w u e (PStr pw)
                  ltac:(assumption) ltac:(assumption) ltac:(assumption)
                  ltac:(assumption) pw eq_refl ltac:(assumption) ex).
Qed.

(** C9. The handler asks for the JSON payload first.  When there is one the
    form is never read and has no effect on the run.  When there is none the
    form is read right after and is no error: each of the three fields is
    read from it without an exception, and the run goes on as for the JSON
    object with the same fields, to the same result and the same state. *)
Theorem json_preferred_form_fallback (req : request) (env : environment) (w : world) :
  (get_json_silent req <> PNone ->
   reads_form (trace_of (register_user req env w)) = false
   /\ forall f, register_user (mkRequest (get_json_silent req) f) env w =
                register_user req env w)
  /\ (get_json_silent req = PNone ->
      (store_reachable env = true ->
       exists rest,
         trace_of (register_user req env w) =
           EvConnect true :: EvGetJson :: EvForm :: rest
         /\ reads_body rest = false)
      /\ (forall key, data_get (payload_of req) key = Return (multidict_get (form req) key))
      /\ result_of (register_user req env w) =
           result_of (register_user (as_json_request req) env w)
      /\ world_of (register_user req env w) =
           world_of (register_user (as_json_request req) env w)).
Proof.
  split.
  - intros Hj. split; [by apply json_never_reads_form |].
    intros f. by apply json_ignores_form.
  - intros Hj. split; [by apply form_read_after_get_json |].
    split; [| by apply form_handled_like_json].
    intros key. unfold payload_of. by rewrite Hj.
Qed.

Lemma json_preferred_form_fallback_witness :
  result_of (register_user ana_form_request accepting_store idle) =
    Return (response_created 1 (PStr "ana") (PStr "ana@example.com"))
  /\ reads_form (trace_of (register_user ana_request accepting_store idle)) = false.
Proof.
  destruct (json_preferred_form_fallback ana_form_request accepting_store idle)
    as [_ Hform].
  destruct (json_preferred_form_fallback ana_request accepting_store idle)
    as [Hjson _].
  destruct Hform as (_ & _ & Hres & _); [reflexivity |].
  destruct Hjson as [Hno _]; [discriminate |].
  split; [rewrite Hres; vm_compute; reflexivity | exact Hno].
Defined.

(** ** What the body decides *)

Lemma data_get_raise (d : payload) (key : string) (ex : exn) :
  data_get d key = Raise ex ->
  exists v, d = JsonData v /\ (forall m, v <> PDict m) /\ ex = no_attribute v "get".
Proof.
  destruct d as [v | f]; [| discriminate].
  destruct v; cbn; intros H; try discriminate; injection H as <-;
    eexists; (split; [reflexivity | split; [discriminate | reflexivity]]).
Qed.

Lemma data_get_not_a_mapping (v : pyval) (key : string) :
  (forall m, v <> PDict m) ->
  data_get (JsonData v) key = Raise (no_attribute v "get").
Proof. intros Hv. destruct v; try reflexivity. by destruct (Hv m). Qed.

(** ** What a run depends on *)

(** X5. Only the three fields count.  Two requests whose payloads give the
    same answer to [data.get] for [username], [email] and [password] are
    handled alike: any other key of the object or the form, and whether the
    fields came as JSON or as a form, change neither the result nor the
    state the run leaves. *)
Theorem only_three_fields_matter (req1 req2 : request) (env : environment)
    (w : world) :
  (forall key, is_required key ->
     data_get (payload_of req1) key = data_get (payload_of req2) key) ->
  result_of (register_user req1 env w) = result_of (register_user req2 env w)
  /\ world_of (register_user req1 env w) = world_of (register_user req2 env w).
Proof.
  intros Hsame.
  pose proof (Hsame "username" (or_introl eq_refl)) as Hu.
  pose proof (Hsame "email" (or_intror (or_introl eq_refl))) as He.
  pose proof (Hsame "password" (or_intror (or_intror eq_refl))) as Hp.
  on_path req1 env w; rewrite ?Hu, ?He, ?Hp in *.
  - by rewrite (path_store_unavailable req2 env w msg).
  - match goal with H : payload_of req1 = JsonData _ |- _ => rewrite H in Hu end.
    rewrite data_get_not_a_mapping in Hu by assumption. symmetry in Hu.
    apply data_get_raise in Hu as (v2 & Hd2 & Hv2 & Hex).
    rewrite (path_not_a_mapping req2 env w v2) by assumption.
    by rewrite Hex.
  - by rewrite (path_missing_fields req2 env w u e p).
  - by rewrite (path_password_not_str req2 env w u e p).
  - by rewrite (path_created req2 env w u e (PStr pw)
                  ltac:(assumption) ltac:(assumption) ltac:(assumption)
                  ltac:(assumption) pw eq_refl ltac:(assumption) id).
  - by rewrite (path_conflict req2 env w u e (PStr pw)
                  ltac:(assumption) ltac:(assumption) ltac:(assumption)
                  ltac:(assumption) pw eq_refl ltac:(assumption) ex).
  - by rewrite (path_internal_error req2 env w u e (PStr pw)
                  ltac:(assumption) ltac:(assumption) ltac:(assumption)
                  ltac:(assumption) pw eq_refl ltac:(assumption) ex).
Qed.

Lemma only_three_fields_matter_witness :
  result_of (register_user ana_with_role_request accepting_store idle) =
    result_of (register_user ana_request accepting_store idle)
  /\ world_of (register_user ana_form_request accepting_store idle) =
       world_of (register_user ana_request accepting_store idle).
Proof.
  split.
  - apply (only_three_fields_matter ana_with_role_request ana_request).
    intros key [-> | [-> | ->]]; vm_compute; reflexivity.
  - apply (only_three_fields_matter ana_form_request ana_request).
    intros key [-> | [-> | ->]]; vm_compute; reflexivity.
Defined.

(** ** Getting the connection *)

(** X9. [get_db_connection] never raises on a refused connection.  It
    returns the connection, with one more connection open and nothing
    printed, or [None], with one line in the log that ends with the driver's
    message and nothing else changed; the table is untouched either way. *)
Theorem get_db_connection_returns_or_logs (env : environment) (w : world) :
  result_of (get_db_connection env w) =
    Return (if store_reachable env then Some PgConnection else None)
  /\ users (world_of (get_db_connection env w)) = users w
  /\ open_cursors (world_of (get_db_connection env w)) = open_cursors w
  /\ open_connections (world_of (get_db_connection env w)) =
       (if store_reachable env then S (open_connections w) else open_connections w)
  /\ stdout (world_of (get_db_connection env w)) =
       stdout w ++
       match connect_error env with
       | None => []
       | Some msg =>
           ["ERROR: No se pudo conectar a la base de datos. Detalles: " +:+ msg]
       end.
Proof.
  unfold store_reachable, get_db_connection, psycopg2_connect, try_except, bind,
    ask, emit, modify, ret, raise, print, result_of, world_of.
  destruct (connect_error env); cbn; repeat split; try reflexivity.
  by rewrite app_nil_r.
Qed.

(** ** Faults of the driver *)

Ltac unfold_handler_on :=
  cbv [register_user_on get_db_connection_on try_except try_finally bind ret raise
       lift refused psycopg2 connect_raises cursor_raises fetchone_empty
       commit_raises rollback_raises cursor_close_raises
       drv_connect drv_cursor drv_execute drv_fetchone drv_commit drv_rollback
       drv_cursor_close drv_conn_close
       psycopg2_connect conn_cursor cursor_execute cursor_fetchone conn_commit
       conn_rollback cursor_close conn_close request_get_json request_form
       bcrypt_hashpw print emit modify ask get_world subscript0].

(** The handler over the driver of the first part is [register_user]. *)
Lemma register_user_on_psycopg2 (req : request) :
  register_user_on psycopg2 req = register_user req.
Proof. reflexivity. Qed.

Lemma get_db_connection_on_psycopg2 :
  get_db_connection_on psycopg2 = get_db_connection.
Proof. reflexivity. Qed.

(** X10. Only [OperationalError] is caught at the connect.  An exception of
    any other class leaves [get_db_connection] and then [register_user] as it
    is: nothing is printed, the body is not read, the state is untouched. *)
Theorem connect_exception_escapes (ex : exn) (req : request) (env : environment)
    (w : world) :
  is_operational_error ex = false ->
  get_db_connection_on (connect_raises ex) env w = (Raise ex, w, [EvConnect false])
  /\ register_user_on (connect_raises ex) req env w = (Raise ex, w, [EvConnect false]).
Proof.
  intros Hcls. unfold_handler_on. rewrite Hcls. by split.
Qed.

Lemma connect_exception_escapes_witness :
  result_of (register_user_on (connect_raises invalid_dsn) ana_request
               accepting_store idle) = Raise invalid_dsn.
Proof.
  destruct (connect_exception_escapes invalid_dsn ana_request accepting_store idle)
    as [_ Hrun]; [reflexivity |].
  by rewrite Hrun.
Defined.

Section Faults.
Variables (req : request) (env : environment) (w : world).
Variables (u e : pyval) (pw : string).
Hypothesis Hconn : connect_error env = None.
Hypothesis Hu : data_get (payload_of req) "username" = Return u.
Hypothesis He : data_get (payload_of req) "email" = Return e.
Hypothesis Hp : data_get (payload_of req) "password" = Return (PStr pw).
Hypothesis Htruthy : all_truthy u e (PStr pw) = true.

(** Runs the handler up to the first call whose outcome is not known. *)
Ltac run_to_try :=
  unfold_handler_on; rewrite Hconn; cbn;
  read_fields Hu He Hp; rewrite all_truthy_test, Htruthy; cbn.

(** X11. [conn.cursor()] is called before the [try]: when it raises, the
    exception leaves the handler, no INSERT is sent, the table is untouched
    and the connection stays open. *)
Theorem cursor_exception_leaks_connection (ex : exn) :
  result_of (register_user_on (cursor_raises ex) req env w) = Raise ex
  /\ attempts_insert (trace_of (register_user_on (cursor_raises ex) req env w)) = false
  /\ users (world_of (register_user_on (cursor_raises ex) req env w)) = users w
  /\ open_connections (world_of (register_user_on (cursor_raises ex) req env w)) =
       S (open_connections w).
Proof.
  unfold result_of, world_of, trace_of, attempts_insert.
  run_to_try; repeat split; reflexivity.
Qed.


(** X13. An exception of the [try] block that does not come from the driver
    is caught as well: when [fetchone] hands back no row, [row[0]] raises a
    [TypeError], the handler rolls back the INSERT it had sent and answers
    500 with the text of the [TypeError]; the row is not in the table. *)
Theorem missing_returning_row_is_a_500 (id : Z) :
  execute_result env = Inserted id ->
  result_of (register_user_on fetchone_empty req env w) =
    Return (response_internal_error
              (TypeError "'NoneType' object is not subscriptable"))
  /\ rolls_back (trace_of (register_user_on fetchone_empty req env w)) = true
  /\ commits (trace_of (register_user_on fetchone_empty req env w)) = false
  /\ users (world_of (register_user_on fetchone_empty req env w)) = users w
  /\ pending (world_of (register_user_on fetchone_empty req env w)) = [].
Proof.
  intros Hx. unfold result_of, world_of, trace_of, rolls_back, commits.
  run_to_try; rewrite Hx; cbn; repeat split; reflexivity.
Qed.

(** X14. An exception of [conn.rollback()] in an [except] clause leaves the
    handler, in place of the 409 or 500 and before anything is printed; the
    [finally] clause still runs, so the cursor and the connection are closed,
    and the table is untouched. *)
Theorem rollback_exception_escapes_after_cleanup (ex1 ex2 : exn) :
  execute_result env = Failed ex1 ->
  result_of (register_user_on (rollback_raises ex2) req env w) = Raise ex2
  /\ stdout (world_of (register_user_on (rollback_raises ex2) req env w)) = stdout w
  /\ users (world_of (register_user_on (rollback_raises ex2) req env w)) = users w
  /\ open_connections (world_of (register_user_on (rollback_raises ex2) req env w)) =
       open_connections w
  /\ open_cursors (world_of (register_user_on (rollback_raises ex2) req env w)) =
       open_cursors w.
Proof.
  intros Hx. unfold result_of, world_of.
  run_to_try; rewrite Hx; cbn; destruct (is_integrity_error ex1); cbn;
    repeat split; reflexivity.
Qed.

(** X15. An exception of [cursor.close()] in the [finally] clause replaces
    the outcome of the [try] and skips [conn.close()].  After an INSERT that
    was committed, the client gets the exception instead of the 201 although
    the row is in the table, and the connection stays open. *)
Theorem cursor_close_exception_masks_201 (ex : exn) (id : Z) :
  execute_result env = Inserted id ->
  result_of (register_user_on (cursor_close_raises ex) req env w) = Raise ex
  /\ commits (trace_of (register_user_on (cursor_close_raises ex) req env w)) = true
  /\ users (world_of (register_user_on (cursor_close_raises ex) req env w)) =
       users w ++ [mkRow id u e (hashpw env pw (gensalt env))]
  /\ open_connections
       (world_of (register_user_on (cursor_close_raises ex) req env w)) =
       S (open_connections w).
Proof.
  intros Hx. unfold result_of, world_of, trace_of, commits.
  run_to_try; rewrite Hx; cbn; repeat split; reflexivity.
Qed.
End Faults.

Lemma cursor_exception_leaks_connection_witness :
  result_of (register_user_on (cursor_raises already_closed) ana_request
               accepting_store idle) = Raise already_closed.
Proof.
  apply (cursor_exception_leaks_connection ana_request accepting_store idle
           (PStr "ana") (PStr "ana@example.com") "Secret123");
    vm_compute; reflexivity.
Defined.


Lemma missing_returning_row_is_a_500_witness :
  users (world_of (register_user_on fetchone_empty ana_request accepting_store idle)) = []
  /\ rolls_back (trace_of (register_user_on fetchone_empty ana_request
                             accepting_store idle)) = true.
Proof.
  destruct (missing_returning_row_is_a_500 ana_request accepting_store idle
              (PStr "ana") (PStr "ana@example.com") "Secret123"
              eq_refl eq_refl eq_refl eq_refl eq_refl 1 eq_refl)
    as (_ & Hrb & _ & Hrows & _).
  split; [exact Hrows | exact Hrb].
Defined.

Lemma rollback_exception_escapes_after_cleanup_witness :
  result_of (register_user_on (rollback_raises already_closed) ana_request
               (failing_store connection_lost) idle) = Raise already_closed
  /\ open_connections (world_of (register_user_on (rollback_raises already_closed)
                                   ana_request (failing_store connection_lost) idle)) =
       0%nat.
Proof.
  destruct (rollback_exception_escapes_after_cleanup ana_request
              (failing_store connection_lost) idle
              (PStr "ana") (PStr "ana@example.com") "Secret123"
              eq_refl eq_refl eq_refl eq_refl eq_refl connection_lost already_closed
              eq_refl)
    as (Hres & _ & _ & Hconn & _).
  split; [exact Hres | exact Hconn].
Defined.

Lemma cursor_close_exception_masks_201_witness :
  result_of (register_user_on (cursor_close_raises already_closed) ana_request
               accepting_store idle) = Raise already_closed
  /\ length (users (world_of (register_user_on (cursor_close_raises already_closed)
                                ana_request accepting_store idle))) = 1%nat.
Proof.
  destruct (cursor_close_exception_masks_201 ana_request accepting_store idle
              (PStr "ana") (PStr "ana@example.com") "Secret123"
              eq_refl eq_refl eq_refl eq_refl eq_refl already_closed 1 eq_refl)
    as (Hres & _ & Hrows & _).
  split; [exact Hres | by rewrite Hrows].
Defined.

(** ** The configuration *)

Lemma os_environ_get_insert_eq (environ : gmap string string) (key value default : string) :
  os_environ_get (<[key := value]> environ) key default = value.
Proof. unfold os_environ_get. by rewrite lookup_insert_eq. Qed.

Lemma os_environ_get_insert_ne (environ : gmap string string)
    (key key' value default : string) :
  key <> key' ->
  os_environ_get (<[key := value]> environ) key' default =
    os_environ_get environ key' default.
Proof. intros Hne. unfold os_environ_get. by rewrite lookup_insert_ne. Qed.

Lemma os_environ_get_delete_eq (environ : gmap string string) (key default : string) :
  os_environ_get (delete key environ) key default = default.
Proof. unfold os_environ_get. by rewrite lookup_delete_eq. Qed.

Lemma os_environ_get_delete_ne (environ : gmap string string)
    (key key' default : string) :
  key <> key' ->
  os_environ_get (delete key environ) key' default =
    os_environ_get environ key' default.
Proof. intros Hne. unfold os_environ_get. by rewrite lookup_delete_ne. Qed.

(** X16. Each setting follows its own variable and no other.  Setting
    [DB_HOST], [POSTGRES_DB], [POSTGRES_USER] or [POSTGRES_PASSWORD] to a
    value, the empty string included, makes that value the setting and
    leaves the other three; unsetting it gives [postgres], [chatdb],
    [appuser] or [secretpassword]; any other variable changes nothing. *)
Theorem config_follows_its_variables (environ : gmap string string)
    (key value : string) :
  let c := load_config environ in
  load_config (<[key := value]> environ) =
    mkConfig (if String.eqb key "DB_HOST" then value else DB_HOST c)
             (if String.eqb key "POSTGRES_DB" then value else DB_NAME c)
             (if String.eqb key "POSTGRES_USER" then value else DB_USER c)
             (if String.eqb key "POSTGRES_PASSWORD" then value else DB_PASSWORD c)
  /\ load_config (delete key environ) =
       mkConfig (if String.eqb key "DB_HOST" then "postgres" else DB_HOST c)
                (if String.eqb key "POSTGRES_DB" then "chatdb" else DB_NAME c)
                (if String.eqb key "POSTGRES_USER" then "appuser" else DB_USER c)
                (if String.eqb key "POSTGRES_PASSWORD" then "secretpassword"
                 else DB_PASSWORD c).
Proof.
  cbv zeta. unfold load_config. cbn [DB_HOST DB_NAME DB_USER DB_PASSWORD].
  split; f_equal;
    match goal with |- context [String.eqb key ?k] =>
      destruct (String.eqb_spec key k) as [-> | Hne]
    end;
    rewrite ?os_environ_get_insert_eq, ?os_environ_get_delete_eq;
    rewrite ?os_environ_get_insert_ne, ?os_environ_get_delete_ne by assumption;
    reflexivity.
Qed.

(** ** Every combination of faults *)

Ltac unfold_faulty :=
  cbv [register_user_on get_db_connection_on insert_and_answer
       try_except try_finally bind ret raise
       lift refused faulty unless_fault
       connect_fault cursor_fault fetchone_no_row commit_fault rollback_fault
       cursor_close_fault conn_close_fault
       drv_connect drv_cursor drv_execute drv_fetchone drv_commit drv_rollback
       drv_cursor_close drv_conn_close
       psycopg2_connect conn_cursor cursor_execute cursor_fetchone conn_commit
       conn_rollback cursor_close conn_close request_get_json request_form
       bcrypt_hashpw print emit modify ask get_world subscript0].

Lemma register_user_on_faulty_path (f : fault_plan) (req : request)
    (env : environment) (w : world) :
  faulty_path f req env w (register_user_on (faulty f) req env w).
Proof.
  destruct (connect_fault f) as [exc |] eqn:Hcf.
  { destruct (is_operational_error exc) eqn:Hop.
    - replace (register_user_on (faulty f) req env w) with
        (Return response_store_unavailable,
         st_print ("ERROR: No se pudo conectar a la base de datos. Detalles: "
                   +:+ str_exn exc) w,
         [EvConnect false]); [by econstructor |].
      unfold_faulty. destruct f; cbn in Hcf; subst. cbn. rewrite Hop. reflexivity.
    - replace (register_user_on (faulty f) req env w) with
        (@Raise response exc, w, [EvConnect false]); [by econstructor |].
      unfold_faulty. destruct f; cbn in Hcf; subst. cbn. rewrite Hop. reflexivity. }
  destruct (connect_error env) as [msg |] eqn:Hc.
  { replace (register_user_on (faulty f) req env w) with
      (Return response_store_unavailable,
       st_print ("ERROR: No se pudo conectar a la base de datos. Detalles: " +:+ msg) w,
       [EvConnect false]); [by econstructor |].
    unfold_faulty. destruct f; cbn in Hcf; subst. cbn. rewrite Hc. reflexivity. }
  destruct (data_get_mapping_or_not (payload_of req)) as [(v & Hd & Hv) | Hget].
  { replace (register_user_on (faulty f) req env w) with
      (@Raise response (no_attribute v "get"), st_connect w, [EvConnect true; EvGetJson]);
      [by econstructor |].
    unfold_faulty. destruct f; cbn in Hcf; subst. cbn. rewrite Hc. cbn.
    unfold payload_of in Hd.
    destruct (get_json_silent req); try discriminate;
      injection Hd as <-; try reflexivity.
    exfalso. by eapply Hv. }
  destruct (Hget "username") as [u Hu], (Hget "email") as [e He],
    (Hget "password") as [p Hp].
  destruct (all_truthy u e p) eqn:Ht.
  2: { destruct (conn_close_fault f) as [exq |] eqn:Hq.
       - replace (register_user_on (faulty f) req env w) with
           (@Raise response exq, st_connect w,
            EvConnect true :: body_reads req ++ [EvConnClose]); [by econstructor |].
         unfold_faulty. destruct f; cbn in Hcf, Hq; subst. cbn. rewrite Hc. cbn.
         read_fields Hu He Hp; rewrite all_truthy_test, Ht; reflexivity.
       - replace (register_user_on (faulty f) req env w) with
           (Return response_missing_fields, st_conn_close (st_connect w),
            EvConnect true :: body_reads req ++ [EvConnClose]); [by econstructor |].
         unfold_faulty. destruct f; cbn in Hcf, Hq; subst. cbn. rewrite Hc. cbn.
         read_fields Hu He Hp; rewrite all_truthy_test, Ht; reflexivity. }
  destruct (is_str p) eqn:Hs.
  2: { replace (register_user_on (faulty f) req env w) with
         (@Raise response (no_attribute p "encode"), st_connect w,
          EvConnect true :: body_reads req); [by econstructor |].
       unfold_faulty. destruct f; cbn in Hcf; subst. cbn. rewrite Hc. cbn.
       read_fields Hu He Hp; rewrite all_truthy_test, Ht;
         destruct p; try discriminate; reflexivity. }
  destruct p as [| | | | pw | |]; try discriminate.
  replace (register_user_on (faulty f) req env w) with
    (result_of (insert_and_answer (faulty f) PgConnection u e
                  (hashpw env pw (gensalt env)) env (st_connect w)),
     world_of (insert_and_answer (faulty f) PgConnection u e
                 (hashpw env pw (gensalt env)) env (st_connect w)),
     EvConnect true :: body_reads req ++
       trace_of (insert_and_answer (faulty f) PgConnection u e
                   (hashpw env pw (gensalt env)) env (st_connect w)));
    [by econstructor |].
  destruct f as [cf kf ff mf rf ccf qf]; cbn in Hcf; subst cf.
  unfold result_of, world_of, trace_of. unfold_faulty. rewrite Hc. cbn.
  read_fields Hu He Hp; rewrite all_truthy_test, Ht; cbn;
    repeat match goal with
    | |- context [match ?x with _ => _ end] =>
        first [is_var x | constr_eq x (execute_result env)]; destruct x; cbn
    | |- context [if is_integrity_error ?x then _ else _] =>
        destruct (is_integrity_error x); cbn
    end; reflexivity.
Qed.

(** Case analysis on the path a run over a plan took. *)
Ltac on_faulty_path f req env w :=
  let Hpath := fresh "Hpath" in
  let run := fresh "run" in
  let Hrun := fresh "Hrun" in
  pose proof (register_user_on_faulty_path f req env w) as Hpath;
  remember (register_user_on (faulty f) req env w) as run eqn:Hrun;
  clear Hrun;
  destruct Hpath;
  unfold result_of, world_of, trace_of, attempts_insert, commits, rolls_back,
    closes_connection in *;
  cbn [fst snd] in *;
  cbn [existsb] in *;
  rewrite ?existsb_body_reads, ?existsb_only_body_reads in * by reflexivity;
  cbn [existsb is_execute is_commit is_rollback is_conn_close orb] in *.

(** Every way through lines 64-104, for a plan and a store answer given
    piece by piece. *)
Ltac explore_block :=
  unfold result_of, world_of, trace_of, attempts_insert, commits, rolls_back,
    closes_connection;
  unfold_faulty; cbn;
  repeat match goal with
  | |- context [match ?x with _ => _ end] => is_var x; destruct x; cbn
  | |- context [if is_integrity_error ?x then _ else _] =>
      destruct (is_integrity_error x); cbn
  end.

Lemma created_id_created (id : Z) (u e : pyval) :
  created_id (Return (response_created id u e)) = Some id.
Proof.
  unfold created_id.
  change (status (response_created id u e) =? 201) with true. cbn iota.
  by rewrite (proj1 (response_created_body id u e)).
Qed.

Section Block.
Variables (f : fault_plan) (env : environment) (w : world).
Variables (u e : pyval) (h : string).

Let block := insert_and_answer (faulty f) PgConnection u e h env (st_connect w).

Lemma block_table :
  users (world_of block) = users w ++ committed_rows f env u e h
  /\ (committed_rows f env u e h <> [] <->
      commits (trace_of block) = true /\ commit_fault f = None)
  /\ (forall id, created_id (result_of block) = Some id ->
        map row_id (committed_rows f env u e h) = [id]).
Proof.
  subst block. unfold committed_rows.
  destruct f as [cf kf ff mf rf ccf qf], env as [ce gs hp er].
  cbn [fetchone_no_row commit_fault cursor_fault execute_result returns].
  explore_block;
    (split; [by rewrite ?app_nil_r | split; [split |]]);
    try (intros; discriminate); try (intros [? ?]; discriminate);
    try (intros; congruence); try done.
  intros id0. rewrite lookup_insert_ne by done. rewrite lookup_insert_eq. congruence.
Qed.

Lemma block_settles :
  (attempts_insert (trace_of block) = true ->
   commits (trace_of block) || rolls_back (trace_of block) = true)
  /\ (attempts_insert (trace_of block) = false ->
      commits (trace_of block) = false /\ rolls_back (trace_of block) = false)
  /\ (commits (trace_of block) = true -> rolls_back (trace_of block) = true ->
      exists ex, commit_fault f = Some ex)
  /\ (status_of (result_of block) = Some 201 ->
      commits (trace_of block) = true /\ rolls_back (trace_of block) = false
      /\ commit_fault f = None)
  /\ (closes_connection (trace_of block) = true -> conn_close_fault f = None ->
      pending (world_of block) = []).
Proof.
  subst block.
  destruct f as [cf kf ff mf rf ccf qf], env as [ce gs hp er].
  cbn [commit_fault conn_close_fault].
  explore_block; repeat split; try done; try (intros; discriminate); eauto.
Qed.

Lemma block_log :
  exists lines,
    stdout (world_of block) = stdout w ++ lines
    /\ (length lines <= 1)%nat
    /\ (status_of (result_of block) = Some 500 -> length lines = 1%nat)
    /\ (forall s, status_of (result_of block) = Some s -> s <> 500 -> lines = []).
Proof.
  subst block.
  destruct f as [cf kf ff mf rf ccf qf], env as [ce gs hp er].
  explore_block;
    first [ exists []; rewrite app_nil_r; repeat split; try done; cbn; try lia;
            intros; congruence
          | eexists [_]; repeat split; try done; cbn; try lia; intros; congruence ].
Qed.

Lemma block_connection :
  count is_connected (trace_of block) = 0%nat
  /\ (count is_conn_close (trace_of block) <= 1)%nat
  /\ (is_raise (result_of block) = false ->
      count is_conn_close (trace_of block) = 1%nat).
Proof.
  subst block.
  destruct f as [cf kf ff mf rf ccf qf], env as [ce gs hp er].
  unfold count. explore_block; repeat split; try done; cbn; lia.
Qed.
End Block.

(** Lines 64-104 use the hash for the row and for nothing else. *)
Lemma block_ignores_hash (f : fault_plan) (env : environment) (w : world)
    (u e : pyval) (h1 h2 : string) :
  result_of (insert_and_answer (faulty f) PgConnection u e h1 env (st_connect w)) =
    result_of (insert_and_answer (faulty f) PgConnection u e h2 env (st_connect w))
  /\ stdout (world_of (insert_and_answer (faulty f) PgConnection u e h1 env
                         (st_connect w))) =
       stdout (world_of (insert_and_answer (faulty f) PgConnection u e h2 env
                           (st_connect w)))
  /\ map row_id (users (world_of (insert_and_answer (faulty f) PgConnection u e h1
                                    env (st_connect w)))) =
       map row_id (users (world_of (insert_and_answer (faulty f) PgConnection u e h2
                                      env (st_connect w)))).
Proof.
  destruct f as [cf kf ff mf rf ccf qf], env as [ce gs hp er].
  explore_block; repeat split; try done; by rewrite !map_app.
Qed.

Lemma count_cons (kind : event -> bool) (ev : event) (t : list event) :
  count kind (ev :: t) = ((if kind ev then 1 else 0) + count kind t)%nat.
Proof. unfold count. cbn. by destruct (kind ev). Qed.

Lemma count_app (kind : event -> bool) (t1 t2 : list event) :
  count kind (t1 ++ t2) = (count kind t1 + count kind t2)%nat.
Proof. unfold count. by rewrite List.filter_app, length_app. Qed.

Lemma count_body_reads (kind : event -> bool) (req : request) :
  kind EvGetJson = false -> kind EvForm = false ->
  count kind (body_reads req) = 0%nat.
Proof.
  intros Hj Hf. unfold count, body_reads.
  destruct (get_json_silent req); cbn; rewrite ?Hj, ?Hf; reflexivity.
Qed.

Lemma committed_rows_at_most_one (f : fault_plan) (env : environment)
    (u e : pyval) (h : string) :
  (length (committed_rows f env u e h) <= 1)%nat.
Proof.
  unfold committed_rows. destruct (execute_result env); [| cbn; lia].
  destruct (_ && _); cbn; lia.
Qed.

(** ** What every run keeps, whatever fails *)

(** X1. The table changes only by a commit that returned.  For every
    request, store answer and plan of faults, the table after the run is the
    table before it followed by at most one row; there is a new row exactly
    when [conn.commit()] was called and returned; and a 201 response carries
    the id of that row as [user_id]. *)
Theorem table_changes_only_by_a_commit (f : fault_plan) (req : request)
    (env : environment) (w : world) :
  exists rows,
    users (world_of (register_user_on (faulty f) req env w)) = users w ++ rows
    /\ (length rows <= 1)%nat
    /\ (rows <> [] <->
        commits (trace_of (register_user_on (faulty f) req env w)) = true
        /\ commit_fault f = None)
    /\ (forall id,
          created_id (result_of (register_user_on (faulty f) req env w)) = Some id ->
          map row_id rows = [id]).
Proof.
  on_faulty_path f req env w;
    try (exists []; rewrite app_nil_r; repeat split; try done; cbn; try lia;
         intros [? _]; discriminate).
  exists (committed_rows f env u e (hashpw env pw (gensalt env))).
  destruct (block_table f env w u e (hashpw env pw (gensalt env)))
    as (Hrows & Hiff & Hid).
  unfold result_of, world_of, trace_of, commits in *.
  split; [exact Hrows |].
  split; [apply committed_rows_at_most_one |].
  split; [exact Hiff | exact Hid].
Qed.

(** X2. An INSERT never stays unsettled.  For every request, store answer
    and plan of faults: an INSERT that was sent is followed by a call of
    commit or of rollback, and without an INSERT neither is called; both are
    called only when the commit itself raised; a 201 is answered only after a
    commit that returned, with no rollback; and when [conn.close()] returned
    nothing is pending. *)
Theorem insert_is_always_settled (f : fault_plan) (req : request)
    (env : environment) (w : world) :
  (attempts_insert (trace_of (register_user_on (faulty f) req env w)) = true ->
   commits (trace_of (register_user_on (faulty f) req env w))
   || rolls_back (trace_of (register_user_on (faulty f) req env w)) = true)
  /\ (attempts_insert (trace_of (register_user_on (faulty f) req env w)) = false ->
      commits (trace_of (register_user_on (faulty f) req env w)) = false
      /\ rolls_back (trace_of (register_user_on (faulty f) req env w)) = false)
  /\ (commits (trace_of (register_user_on (faulty f) req env w)) = true ->
      rolls_back (trace_of (register_user_on (faulty f) req env w)) = true ->
      exists ex, commit_fault f = Some ex)
  /\ (status_of (result_of (register_user_on (faulty f) req env w)) = Some 201 ->
      commits (trace_of (register_user_on (faulty f) req env w)) = true
      /\ rolls_back (trace_of (register_user_on (faulty f) req env w)) = false
      /\ commit_fault f = None)
  /\ (closes_connection (trace_of (register_user_on (faulty f) req env w)) = true ->
      conn_close_fault f = None ->
      pending (world_of (register_user_on (faulty f) req env w)) = []).
Proof.
  on_faulty_path f req env w;
    try (repeat split; try done; intros; try discriminate; congruence).
  pose proof (block_settles f env w u e (hashpw env pw (gensalt env))) as Hblock.
  unfold result_of, world_of, trace_of, attempts_insert, commits, rolls_back,
    closes_connection in Hblock.
  exact Hblock.
Qed.



(** X4. The log.  For every request, store answer and plan of faults a run
    prints at most one line; it has printed exactly one when it answers 500
    and none when it answers 201, 400 or 409. *)
Theorem at_most_one_line_printed (f : fault_plan) (req : request)
    (env : environment) (w : world) :
  exists lines,
    stdout (world_of (register_user_on (faulty f) req env w)) = stdout w ++ lines
    /\ (length lines <= 1)%nat
    /\ (status_of (result_of (register_user_on (faulty f) req env w)) = Some 500 ->
        length lines = 1%nat)
    /\ (forall s,
          status_of (result_of (register_user_on (faulty f) req env w)) = Some s ->
          s <> 500 -> lines = []).
Proof.
  on_faulty_path f req env w;
    try (exists []; rewrite app_nil_r; repeat split; try done; cbn; try lia;
         intros; congruence);
    try (eexists [_]; repeat split; try done; cbn; try lia; intros; congruence).
  pose proof (block_log f env w u e (hashpw env pw (gensalt env))) as Hblock.
  unfold result_of, world_of in Hblock. exact Hblock.
Qed.

(** X6. Past line 62 the password plays no part.  Two requests that differ
    only in their password, handled against the same store answer and the
    same plan of faults: when both runs get as far as the INSERT, they end
    with the same result, print the same lines, and leave tables whose rows
    have the same ids. *)
Theorem password_only_reaches_the_hash (f : fault_plan) (req1 req2 : request)
    (env : environment) (w : world) (pw1 pw2 : string) :
  data_get (payload_of req1) "username" = data_get (payload_of req2) "username" ->
  data_get (payload_of req1) "email" = data_get (payload_of req2) "email" ->
  data_get (payload_of req1) "password" = Return (PStr pw1) ->
  data_get (payload_of req2) "password" = Return (PStr pw2) ->
  attempts_insert (trace_of (register_user_on (faulty f) req1 env w)) = true ->
  attempts_insert (trace_of (register_user_on (faulty f) req2 env w)) = true ->
  result_of (register_user_on (faulty f) req1 env w) =
    result_of (register_user_on (faulty f) req2 env w)
  /\ stdout (world_of (register_user_on (faulty f) req1 env w)) =
       stdout (world_of (register_user_on (faulty f) req2 env w))
  /\ map row_id (users (world_of (register_user_on (faulty f) req1 env w))) =
       map row_id (users (world_of (register_user_on (faulty f) req2 env w))).
Proof.
  intros Hu He Hp1 Hp2 Hins1 Hins2.
  on_faulty_path f req1 env w; try discriminate.
  on_faulty_path f req2 env w; try discriminate.
  rewrite Hu, He in *. same_field.
  exact (block_ignores_hash _ _ _ _ _ _ _).
Qed.

Lemma password_only_reaches_the_hash_witness :
  result_of (register_user_on (faulty no_faults) ana_request accepting_store idle) =
    result_of (register_user_on (faulty no_faults) ana_other_password_request
                 accepting_store idle)
  /\ stdout (world_of (register_user_on (faulty no_faults) ana_request
                         (failing_store undefined_table) idle)) =
       stdout (world_of (register_user_on (faulty no_faults)
                           ana_other_password_request
                           (failing_store undefined_table) idle)).
Proof.
  split.
  - apply (password_only_reaches_the_hash no_faults ana_request
             ana_other_password_request accepting_store idle "Secret123" "hunter2");
      vm_compute; reflexivity.
  - apply (password_only_reaches_the_hash no_faults ana_request
             ana_other_password_request (failing_store undefined_table) idle
             "Secret123" "hunter2");
      vm_compute; reflexivity.
Defined.

(** ** Many calls, whatever fails *)

Lemma serve_on_cons (f : fault_plan) (req : request) (env : environment)
    (rest : list (fault_plan * request * environment)) (w : world) :
  serve_on ((f, req, env) :: rest) w =
    (result_of (register_user_on (faulty f) req env w)
       :: result_of (serve_on rest (world_of (register_user_on (faulty f) req env w))),
     world_of (serve_on rest (world_of (register_user_on (faulty f) req env w))),
     trace_of (register_user_on (faulty f) req env w)
       ++ trace_of (serve_on rest
                      (world_of (register_user_on (faulty f) req env w)))).
Proof.
  cbn. destruct (register_user_on (faulty f) req env w) as [[r w1] t1]. cbn.
  destruct (serve_on rest w1) as [[rs w2] t2]. reflexivity.
Qed.

(** A call opens at most one connection, passes none to [conn.close()]
    that it did not open, and passes the one it opened when it ends with a
    response. *)
Lemma call_closes_its_connection (f : fault_plan) (req : request)
    (env : environment) (w : world) :
  (count is_conn_close (trace_of (register_user_on (faulty f) req env w))
   <= count is_connected (trace_of (register_user_on (faulty f) req env w)))%nat
  /\ (count is_connected (trace_of (register_user_on (faulty f) req env w))
      <= count is_conn_close (trace_of (register_user_on (faulty f) req env w))
         + (if is_raise (result_of (register_user_on (faulty f) req env w))
            then 1 else 0))%nat.
Proof.
  on_faulty_path f req env w;
    rewrite ?count_cons, ?count_app, ?count_body_reads by reflexivity;
    try (cbn; lia).
  destruct (block_connection f env w u e (hashpw env pw (gensalt env)))
    as (Hopen & Hle & Hret).
  unfold result_of, trace_of in *. rewrite Hopen. cbn.
  destruct (is_raise _); [lia |]. rewrite Hret by reflexivity. lia.
Qed.

Lemma rows_after_call_on (f : fault_plan) (req : request) (env : environment)
    (w : world) :
  exists rows,
    users (world_of (register_user_on (faulty f) req env w)) = users w ++ rows
    /\ (length rows <= 1)%nat
    /\ map row_id rows =
         match created_id (result_of (register_user_on (faulty f) req env w)) with
         | Some id => [id]
         | None => map row_id rows
         end.
Proof.
  on_faulty_path f req env w;
    try (exists []; rewrite app_nil_r; repeat split; try done; cbn; lia).
  exists (committed_rows f env u e (hashpw env pw (gensalt env))).
  destruct (block_table f env w u e (hashpw env pw (gensalt env)))
    as (Hrows & _ & Hid).
  unfold result_of, world_of in *.
  repeat split; try assumption; [apply committed_rows_at_most_one |].
  destruct (created_id _) as [id |]; [by apply Hid | reflexivity].
Qed.

(** X7. Connections left unclosed belong to calls that raised.  Over any
    sequence of calls, each with its own store answer and plan of faults, the
    handler never calls [conn.close()] more often than it connected, and the
    number of connections it opened and did not pass to [conn.close()] is at
    most the number of calls that ended with an exception: a call that ends
    with a response has closed its connection. *)
Theorem unclosed_connections_come_from_exceptions
    (calls : list (fault_plan * request * environment)) (w : world) :
  (count is_conn_close (trace_of (serve_on calls w))
   <= count is_connected (trace_of (serve_on calls w)))%nat
  /\ (count is_connected (trace_of (serve_on calls w))
      <= count is_conn_close (trace_of (serve_on calls w))
         + length (List.filter is_raise (result_of (serve_on calls w))))%nat.
Proof.
  revert w. induction calls as [| [[f req] env] calls IH]; intros w.
  - cbn. split; lia.
  - rewrite serve_on_cons. unfold trace_of, result_of. cbn [fst snd List.filter].
    rewrite !count_app.
    destruct (IH (world_of (register_user_on (faulty f) req env w))) as [IH1 IH2].
    destruct (call_closes_its_connection f req env w) as [H1 H2].
    unfold trace_of, result_of, world_of in *.
    destruct (is_raise (register_user_on (faulty f) req env w).1.1);
      cbn [length]; split; lia.
Qed.

(** X8. The table is append-only, and every 201 is in it.  Over any sequence
    of calls, each with its own store answer and plan of faults, the table
    ends as the old table followed by new rows, at most one per call, and the
    [user_id]s of the 201 responses are, in the order of the calls, among the
    ids of the new rows. *)
Theorem every_201_is_a_new_row
    (calls : list (fault_plan * request * environment)) (w : world) :
  exists rows,
    users (world_of (serve_on calls w)) = users w ++ rows
    /\ (length rows <= length calls)%nat
    /\ sublist (omap created_id (result_of (serve_on calls w))) (map row_id rows).
Proof.
  revert w. induction calls as [| [[f req] env] calls IH]; intros w.
  - exists []. split; [by rewrite app_nil_r |]. split; [cbn; lia | constructor].
  - rewrite serve_on_cons. unfold world_of, result_of. cbn [fst snd omap list_omap].
    destruct (rows_after_call_on f req env w) as (rows1 & Hrows1 & Hlen1 & Hids1).
    destruct (IH (world_of (register_user_on (faulty f) req env w)))
      as (rows2 & Hrows2 & Hlen2 & Hids2).
    unfold world_of, result_of in *.
    exists (rows1 ++ rows2). split; [by rewrite Hrows2, Hrows1, app_assoc |].
    split; [rewrite length_app; cbn [length]; lia |].
    rewrite map_app.
    destruct (created_id (register_user_on (faulty f) req env w).1.1) as [id |].
    + rewrite Hids1. cbn. by constructor.
    + by apply sublist_inserts_l.
Qed.

(** ** The plans and the drivers of the sections above *)

(** The plan without faults is the driver of the first part, and the
    drivers with one fault are the plans with that fault alone. *)
Lemma faulty_no_faults (req : request) :
  register_user_on (faulty no_faults) req = register_user req.
Proof. reflexivity. Qed.

Lemma faulty_single_faults (ex : exn) :
  faulty (mkFaultPlan (Some ex) None false None None None None) = connect_raises ex
  /\ faulty (mkFaultPlan None (Some ex) false None None None None) = cursor_raises ex
  /\ faulty (mkFaultPlan None None true None None None None) = fetchone_empty
  /\ faulty (mkFaultPlan None None false (Some ex) None None None) = commit_raises ex
  /\ faulty (mkFaultPlan None None false None (Some ex) None None) = rollback_raises ex
  /\ faulty (mkFaultPlan None None false None None (Some ex) None) =
       cursor_close_raises ex.
Proof. repeat split; reflexivity. Qed.
